(** * The SMHI weather client: selection, fetch and chart composition

    A shallow embedding of the Vue client of the repository:
    - [TemperatureChart]  frontend/src/components/TemperatureChart.vue
    - [CitySearch]        frontend/src/components/CitySearch.vue
    - [App]               frontend/src/App.vue (the view with the
                          recent/monthly/historical toggle)
    - [AppSimple]         the older copy of App.vue, without the toggle
    - [ChartLifecycle]    the chart object of TemperatureChart.vue, from
                          [onMounted] through the [props.data] watcher
    - [TemperatureChartOld]  the older copy of TemperatureChart.vue

    Conventions.  A JavaScript string is held as the [string] of its
    UTF-8 bytes, and [JS.length] counts its UTF-16 code units, as
    [.length] does.  A property that the code only tests or passes on is
    an [option]: [None] when it is absent, [undefined] or [null].  The
    [city] of a payload is printed, so it keeps the three apart
    ([JS.Text]).  A number is a rational; where the code multiplies two
    doubles, the product is rounded as IEEE 754 rounds it ([JS.double]).
    An [async] function is split at its [await]: the part that runs when
    the function is called, and the part that resumes when the request
    settles. *)

From Stdlib Require Import String Ascii ZArith QArith Qround Qpower Lqa List Bool Lia DecimalString.
From stdpp Require Import base option list strings.
Import ListNotations.

Close Scope Q_scope.
Local Open Scope string_scope.
Local Open Scope list_scope.

(** ** JavaScript values as far as the client looks at them *)

Module JS.

(** Truthiness of a string-valued property: [undefined], [null] and the
    empty string are falsy. *)
Definition truthy_string (v : option string) : bool :=
  match v with
  | Some s => negb (s =? "")
  | None => false
  end.

(** Truthiness of an array- or object-valued property: only an absent
    one is falsy (an empty array or object is truthy). *)
Definition truthy_object {A : Type} (v : option A) : bool :=
  match v with
  | Some _ => true
  | None => false
  end.

(** [v === s] for a property [v] and a string literal [s]. *)
Definition strict_eq (v : option string) (s : string) : bool :=
  match v with
  | Some t => t =? s
  | None => false
  end.

(** [a !== b] on two string-valued properties. *)
Definition strict_ne (a b : option string) : bool :=
  match a, b with
  | Some s, Some t => negb (s =? t)
  | None, None => false
  | _, _ => true
  end.

(** What a template literal prints for a property that is a string or
    [undefined]. *)
Definition to_string (v : option string) : string :=
  match v with
  | Some s => s
  | None => "undefined"
  end.

(** What a template literal prints for an integer. *)
Definition number_to_string (z : Z) : string :=
  NilZero.string_of_int (Z.to_int z).

(** The UTF-16 code units that the UTF-8 sequence starting with this
    byte stands for: one for a character of one, two or three bytes, two
    (a surrogate pair) for a character of four bytes, none for a
    continuation byte. *)
Definition code_units (byte : ascii) : nat :=
  let b := nat_of_ascii byte in
  if (b <? 128)%nat then 1%nat
  else if (b <? 192)%nat then 0%nat
  else if (b <? 240)%nat then 1%nat
  else 2%nat.

(** [s.length] *)
Fixpoint length (s : string) : nat :=
  match s with
  | EmptyString => 0%nat
  | String byte rest => (code_units byte + length rest)%nat
  end.

(** A property that is printed: absent (or [undefined]), [null], or a
    string. *)
Inductive Text : Type :=
| Absent
| Null
| Str (s : string).

(** The same property where it is only tested or compared. *)
Definition text_string (t : Text) : option string :=
  match t with
  | Str s => Some s
  | _ => None
  end.

(** What a template literal, or a property access, prints for it. *)
Definition print (t : Text) : string :=
  match t with
  | Str s => s
  | Null => "null"
  | Absent => "undefined"
  end.

(** The properties every object literal inherits from
    [Object.prototype]; each is a function or an object, so truthy. *)
Definition Object_prototype : list string :=
  [ "constructor"; "hasOwnProperty"; "isPrototypeOf"; "propertyIsEnumerable";
    "toLocaleString"; "toString"; "valueOf"; "__proto__";
    "__defineGetter__"; "__defineSetter__"; "__lookupGetter__";
    "__lookupSetter__" ].

Definition inherited (key : string) : bool :=
  existsb (String.eqb key) Object_prototype.

(** Rounding to the nearest integer, ties to the even one. *)
Definition nearest_even (y : Q) : Z :=
  let n := Qfloor y in
  match Qcompare (y - inject_Z n) (1 # 2) with
  | Lt => n
  | Gt => (n + 1)%Z
  | Eq => if Z.even n then n else (n + 1)%Z
  end.

(** The binary exponent of a positive number [x]: the [e] with
    [2^e <= x < 2^(e+1)]. *)
Definition exponent (x : Q) : Z :=
  if Qle_bool 1 x then Z.log2 (Qfloor x)
  else (- Z.log2_up (Qceiling (/ x)))%Z.

(** The double nearest to a number that is not negative and not beyond
    the doubles' range (IEEE 754 binary64, round to nearest, ties to
    even): 53 significant bits, and steps of [2^-1074] below
    [2^-1022]. *)
Definition double (x : Q) : Q :=
  if Qle_bool x 0 then 0%Q
  else
    let k := (Z.max (exponent x) (-1022) - 52)%Z in
    (inject_Z (nearest_even (x / (2 ^ k))) * 2 ^ k)%Q.

End JS.

(** ** The data exchanged with the backend *)

(** A temperature reading: a JSON number, or [null] for a missing one. *)
Definition reading : Type := option Q.

Record TimeRange : Type := {
  start : string;
  end_ : string
}.

(** The body of a successful temperature response, of either shape. *)
Module Payload.
Record t : Type := {
  months : option (list string);
  cities : option (list (string * list reading));
  average : option (list reading);
  city : JS.Text;
  temperatures : option (list reading);
  station_name : option string;
  station_id : option Z;
  period : option string;
  time_range : option TimeRange
}.
End Payload.

(** A city as the search endpoint returns it, or as the major-cities
    buttons build it ([id] and [name] only).  [station_name] and
    [station_id] are the two properties App.vue adds later. *)
Module City.
Record t : Type := {
  id : option Z;
  name : string;
  latitude : option Q;
  longitude : option Q;
  station_name : option string;
  station_id : option Z
}.
End City.

(** How a call of [axios.get] settles: resolved with a 2xx response;
    rejected with the response of another status, whose body is an object
    that may carry a [detail] string; or rejected without a response
    (network failure, timeout). *)
Module Axios.
Record ErrorBody : Type := { detail : option string }.

Inductive Result (A : Type) : Type :=
| Resolved (status : Z) (data : A)
| RejectedResponse (status : Z) (data : ErrorBody)
| RejectedNoResponse (message : string).
Arguments Resolved {A} status data.
Arguments RejectedResponse {A} status data.
Arguments RejectedNoResponse {A} message.

Definition failed {A : Type} (r : Result A) : bool :=
  match r with
  | Resolved _ _ => false
  | _ => true
  end.
End Axios.

(** ** TemperatureChart.vue *)

Module TemperatureChart.

(** [Math.random] is threaded as a counter: the [n]-th call returns
    [Math_random n], a double from 0 (included) to 1 (excluded), held as
    the rational it is. *)
Definition Rand (A : Type) : Type := nat -> A * nat.

Definition ret {A : Type} (a : A) : Rand A := fun n => (a, n).

Definition bind {A B : Type} (m : Rand A) (k : A -> Rand B) : Rand B :=
  fun n => let (a, n') := m n in k a n'.

Notation "'let*' x ':=' m 'in' k" := (bind m (fun x => k))
  (at level 10, x name, m at level 200, k at level 200).

(** The value of a color property: a string, or, when the name looked up
    in [CITY_COLORS] is one that every object inherits, the inherited
    property (a function or an object, not a string). *)
Inductive Color : Type :=
| ColorString (s : string)
| InheritedProperty (key : string).

Coercion ColorString : string >-> Color.

(** A string in a pair is read as a color where a color is expected. *)
Arguments pair {A B}%_type_scope & a b.

Record Dataset : Type := {
  label : option string;
  data : list reading;
  borderColor : Color;
  backgroundColor : Color;
  borderWidth : option Z;
  tension : Q;
  pointRadius : Z
}.

Record Ticks : Type := {
  maxTicksLimit : Z;
  maxRotation : Z;
  minRotation : Z
}.

(** [options.plugins.title.text]: one string, or an array of lines. *)
Inductive TitleText : Type :=
| OneLine (s : string)
| Lines (l : list string).

(** The configuration object handed to [new Chart]; nested properties
    are flattened ([x_title_text] is [options.scales.x.title.text]). *)
Record ChartConfig : Type := {
  type : string;
  labels : option (list string);
  datasets : list Dataset;
  title_text : TitleText;
  y_title_text : string;
  x_title_text : string;
  x_ticks : option Ticks
}.

Definition CITY_COLORS : list (string * string) :=
  [ ("Stockholm", "rgb(54, 162, 235)");
    ("Göteborg", "rgb(255, 99, 132)");
    ("Malmö", "rgb(75, 192, 192)");
    ("Uppsala", "rgb(255, 159, 64)");
    ("Umeå", "rgb(153, 102, 255)");
    ("Average", "rgb(0, 0, 0)") ].

(** [CITY_COLORS[key]] among the object's own properties. *)
Fixpoint lookup_color (key : string) (table : list (string * string))
  : option string :=
  match table with
  | [] => None
  | (k, v) :: rest => if k =? key then Some v else lookup_color key rest
  end.

Section WithRandom.
Variable Math_random : nat -> Q.

(** [Math.floor(Math.random() * 255)] *)
Definition random_channel : Rand Z :=
  fun n => (Qfloor (JS.double (Math_random n * 255)), S n).

(** [CITY_COLORS[cityName] || `rgb(...)`]: an own property of the
    palette, else a property inherited from [Object.prototype], else the
    random color. *)
Definition getCityColor (cityName : string) : Rand Color :=
  if JS.truthy_string (lookup_color cityName CITY_COLORS)
  then ret (ColorString (JS.to_string (lookup_color cityName CITY_COLORS)))
  else if JS.inherited cityName
       then ret (InheritedProperty cityName)
       else
         let* r := random_channel in
         let* g := random_channel in
         let* b := random_channel in
         ret (ColorString
                ("rgb(" +:+ JS.number_to_string r +:+ ", "
                   +:+ JS.number_to_string g +:+ ", "
                   +:+ JS.number_to_string b +:+ ")")).

(** The loop over [Object.entries(props.data.cities)]; the entries are
    listed in the object's iteration order. *)
Fixpoint city_datasets (entries : list (string * list reading))
  : Rand (list Dataset) :=
  match entries with
  | [] => ret []
  | (cityName, temperatures) :: rest =>
      let* border := getCityColor cityName in
      let* background := getCityColor cityName in
      let* more := city_datasets rest in
      ret ({| label := Some cityName;
              data := temperatures;
              borderColor := border;
              backgroundColor := background;
              borderWidth := None;
              tension := 3 # 10;
              pointRadius := 3 |} :: more)
  end.

(** The [else if (props.data.temperatures)] branch. *)
Definition single_city_dataset (d : Payload.t) (temperatures : list reading)
  : Rand (list Dataset) :=
  let cityName := Payload.city d in
  let label :=
    if JS.truthy_string (Payload.station_name d)
       && JS.strict_ne (Payload.station_name d) (JS.text_string cityName)
    then Some (JS.print cityName +:+ " ("
                 +:+ JS.to_string (Payload.station_name d) +:+ ")")
    else JS.text_string cityName in
  let* border := getCityColor (JS.print cityName) in
  let* background := getCityColor (JS.print cityName) in
  ret [ {| label := label;
           data := temperatures;
           borderColor := border;
           backgroundColor := background;
           borderWidth := None;
           tension := 3 # 10;
           pointRadius := 3 |} ].

(** The [if (props.data.average)] block. *)
Definition average_dataset (d : Payload.t) : list Dataset :=
  match Payload.average d with
  | Some average =>
      [ {| label := Some "Average";
           data := average;
           borderColor :=
             ColorString (JS.to_string (lookup_color "Average" CITY_COLORS));
           backgroundColor :=
             ColorString (JS.to_string (lookup_color "Average" CITY_COLORS));
           borderWidth := Some 3%Z;
           tension := 3 # 10;
           pointRadius := 4 |} ]
  | None => []
  end.

Definition build_datasets (d : Payload.t) : Rand (list Dataset) :=
  let* per_city :=
    match Payload.cities d with
    | Some cities => city_datasets cities
    | None =>
        match Payload.temperatures d with
        | Some temperatures => single_city_dataset d temperatures
        | None => ret []
        end
    end in
  ret (per_city ++ average_dataset d).

Definition x_axis_title (d : Payload.t) : string :=
  if JS.strict_eq (Payload.period d) "historical" then "Year-Month"
  else if JS.strict_eq (Payload.period d) "monthly"
       then "Year-Month (Last 12 Months)"
       else "Month".

(** The two blocks that rewrite the configuration after it is built:
    the title for historical and for monthly data, and the tick
    limits for a long historical axis. *)
Definition title_for (d : Payload.t) (title : string) : TitleText :=
  let text :=
    match JS.strict_eq (Payload.period d) "historical", Payload.time_range d with
    | true, Some range =>
        Lines [ title; "Data range: " +:+ start range +:+ " to " +:+ end_ range ]
    | _, _ => OneLine title
    end in
  match JS.strict_eq (Payload.period d) "monthly", Payload.time_range d with
  | true, Some range =>
      Lines [ title;
              "Monthly data from " +:+ start range +:+ " to " +:+ end_ range ]
  | _, _ => text
  end.

Definition ticks_for (d : Payload.t) : option Ticks :=
  if JS.strict_eq (Payload.period d) "historical"
     && JS.truthy_object (Payload.time_range d)
  then
    match Payload.months d with
    | Some months =>
        if (30 <? Z.of_nat (length months))%Z
        then Some {| maxTicksLimit := 20; maxRotation := 45; minRotation := 45 |}
        else None
    | None => None
    end
  else None.

(** [createChart]: [None] when it returns before building anything
    (no canvas yet, or no data), otherwise the configuration of the
    chart it creates. *)
Definition createChart (chartCanvas : bool) (props_data : option Payload.t)
  (props_title : string) : Rand (option ChartConfig) :=
  match chartCanvas, props_data with
  | true, Some d =>
      let* datasets := build_datasets d in
      ret (Some {| type := "line";
                   labels := Payload.months d;
                   datasets := datasets;
                   title_text := title_for d props_title;
                   y_title_text := "Temperature (°C)";
                   x_title_text := x_axis_title d;
                   x_ticks := ticks_for d |})
  | _, _ => ret None
  end.

End WithRandom.

End TemperatureChart.

(** ** CitySearch.vue *)

Module CitySearch.

Record State : Type := {
  searchTerm : string;
  results : list City.t;
  loading : bool;
  error : string
}.

Definition initial : State :=
  {| searchTerm := ""; results := []; loading := false; error := "" |}.

Section WithOrigin.
(** [window.location.origin] *)
Variable origin : string.

(** [searchCity] up to its [await]: the new state, and the URL handed
    to [axios.get] when a request is made. *)
Definition searchCity (s : State) : State * option string :=
  if negb (JS.truthy_string (Some (searchTerm s)))
     || (JS.length (searchTerm s) <? 2)%nat
  then ({| searchTerm := searchTerm s;
           results := results s;
           loading := loading s;
           error := "Please enter at least 2 characters" |}, None)
  else ({| searchTerm := searchTerm s;
           results := results s;
           loading := true;
           error := "" |},
        Some (origin +:+ "/api/cities/search/" +:+ searchTerm s)).

(** [searchCity] from the point where the request settles. *)
Definition searchCity_resume (r : Axios.Result (list City.t)) (s : State)
  : State :=
  match r with
  | Axios.Resolved _ found =>
      {| searchTerm := searchTerm s;
         results := found;
         loading := false;
         error := if (length found =? 0)%nat
                  then "No matching cities found" else error s |}
  | _ =>
      {| searchTerm := searchTerm s;
         results := results s;
         loading := false;
         error := "Error searching for cities. Please try again." |}
  end.

(** [selectCity]: the new state and the city emitted with
    [city-selected]. *)
Definition selectCity (city : City.t) (s : State) : State * City.t :=
  ({| searchTerm := searchTerm s;
      results := [];
      loading := loading s;
      error := error s |}, city).

(** What the user and the network do to the search box. *)
Inductive Event : Type :=
| Typed (term : string)
| SearchRequested
| CityClicked (city : City.t)
| Settled (n : nat) (r : Axios.Result (list City.t)).

(** The search box with its requests: the URLs still pending, the URL
    of every request made so far, and the cities emitted to the
    parent view. *)
Record System : Type := {
  state : State;
  inflight : list string;
  sent : list string;
  emitted : list City.t
}.

Definition boot : System :=
  {| state := initial; inflight := []; sent := []; emitted := [] |}.

Definition step (sys : System) (e : Event) : System :=
  match e with
  | Typed term =>
      {| state := {| searchTerm := term;
                     results := results (state sys);
                     loading := loading (state sys);
                     error := error (state sys) |};
         inflight := inflight sys;
         sent := sent sys;
         emitted := emitted sys |}
  | SearchRequested =>
      let (s, request) := searchCity (state sys) in
      {| state := s;
         inflight := inflight sys ++ option_list request;
         sent := sent sys ++ option_list request;
         emitted := emitted sys |}
  | CityClicked city =>
      let (s, chosen) := selectCity city (state sys) in
      {| state := s;
         inflight := inflight sys;
         sent := sent sys;
         emitted := emitted sys ++ [ chosen ] |}
  | Settled n r =>
      match inflight sys !! n with
      | Some _ =>
          {| state := searchCity_resume r (state sys);
             inflight := delete n (inflight sys);
             sent := sent sys;
             emitted := emitted sys |}
      | None => sys
      end
  end.

Definition run (events : list Event) (sys : System) : System :=
  fold_left step events sys.

End WithOrigin.

End CitySearch.

(** ** What the two top-level views share *)

(** Major Swedish cities and their station IDs. *)
Definition MAJOR_CITIES : list (string * Z) :=
  [ ("Stockholm", 97400%Z);
    ("Göteborg", 72420%Z);
    ("Malmö", 53430%Z);
    ("Uppsala", 97510%Z);
    ("Umeå", 140480%Z) ].

(** [MAJOR_CITIES[cityName]], for the names the buttons pass: the keys
    of [MAJOR_CITIES] (the template makes one button per key). *)
Fixpoint lookup_station (cityName : string) (table : list (string * Z))
  : option Z :=
  match table with
  | [] => None
  | (k, v) :: rest => if k =? cityName then Some v else lookup_station cityName rest
  end.

(** The object literal [{ id: MAJOR_CITIES[cityName], name: cityName }]. *)
Definition major_city (cityName : string) : City.t :=
  {| City.id := lookup_station cityName MAJOR_CITIES;
     City.name := cityName;
     City.latitude := None;
     City.longitude := None;
     City.station_name := None;
     City.station_id := None |}.

(** Which suspended call a pending request resumes when it settles. *)
Inductive Awaiting : Type :=
| AllCities
| CityData (cityName : string).

(** A request handed to [axios.get], with the call that awaits it. *)
Record Request : Type := {
  url : string;
  awaiting : Awaiting
}.

(** ** App.vue: the view with the period toggle *)

Module App.

Record State : Type := {
  chartData : option Payload.t;
  loading : bool;
  error : string;
  selectedCity : option City.t;
  showHistorical : bool;
  showMonthly : bool
}.

(** The refs as [setup] creates them. *)
Definition initial : State :=
  {| chartData := None; loading := true; error := "";
     selectedCity := None; showHistorical := false; showMonthly := false |}.

Definition chartTitle (s : State) : string :=
  match selectedCity s with
  | Some c =>
      "Temperature Data for " +:+ City.name c +:+
        (if showHistorical s then " (Historical)"
         else if showMonthly s then " (Monthly)"
              else " (Recent)")
  | None => "Temperature Data for Major Swedish Cities"
  end.

(** [fetchAllCitiesData] up to its [await]. *)
Definition fetchAllCitiesData (s : State) : State * list Request :=
  ({| chartData := chartData s; loading := true; error := "";
      selectedCity := None; showHistorical := false; showMonthly := false |},
   [ {| url := "/api/graph/cities"; awaiting := AllCities |} ]).

(** [fetchAllCitiesData] from the point where the request settles. *)
Definition fetchAllCitiesData_resume (r : Axios.Result Payload.t) (s : State)
  : State :=
  match r with
  | Axios.Resolved _ body =>
      {| chartData := Some body; loading := false; error := error s;
         selectedCity := selectedCity s;
         showHistorical := showHistorical s; showMonthly := showMonthly s |}
  | _ =>
      {| chartData := chartData s; loading := false;
         error := "Failed to load temperature data. Please try again later.";
         selectedCity := selectedCity s;
         showHistorical := showHistorical s; showMonthly := showMonthly s |}
  end.

Definition endpoint (cityName dataType : string) : string :=
  if dataType =? "historical" then "/api/graph/historical/" +:+ cityName
  else if dataType =? "monthly" then "/api/graph/monthly/" +:+ cityName
       else "/api/graph/city/" +:+ cityName.

(** [fetchCityData] up to its [await]. *)
Definition fetchCityData (cityName dataType : string) (s : State)
  : State * list Request :=
  ({| chartData := chartData s; loading := true; error := "";
      selectedCity := selectedCity s;
      showHistorical := showHistorical s; showMonthly := showMonthly s |},
   [ {| url := endpoint cityName dataType; awaiting := CityData cityName |} ]).

(** The two assignments under "Update the city info if it was found
    through search". *)
Definition record_station (body : Payload.t) (c : City.t) : City.t :=
  {| City.id := City.id c;
     City.name := City.name c;
     City.latitude := City.latitude c;
     City.longitude := City.longitude c;
     City.station_name := Payload.station_name body;
     City.station_id := Payload.station_id body |}.

(** The message the [catch] block of [fetchCityData] assigns. *)
Definition city_error_message (cityName : string) (r : Axios.Result Payload.t)
  : string :=
  match r with
  | Axios.RejectedResponse status body =>
      if (status =? 404)%Z
      then if JS.truthy_string (Axios.detail body)
           then JS.to_string (Axios.detail body)
           else "No data found for " +:+ cityName
      else "Failed to load data for " +:+ cityName +:+ ". Please try again."
  | _ => "Failed to load data for " +:+ cityName +:+ ". Please try again."
  end.

(** [fetchCityData] from the point where the request settles. *)
Definition fetchCityData_resume (cityName : string)
  (r : Axios.Result Payload.t) (s : State) : State :=
  match r with
  | Axios.Resolved _ body =>
      {| chartData := Some body; loading := false; error := error s;
         selectedCity :=
           match selectedCity s with
           | Some c =>
               if JS.truthy_string (Payload.station_name body)
               then Some (record_station body c)
               else Some c
           | None => None
           end;
         showHistorical := showHistorical s; showMonthly := showMonthly s |}
  | _ =>
      {| chartData := None; loading := false;
         error := city_error_message cityName r;
         selectedCity := selectedCity s;
         showHistorical := showHistorical s; showMonthly := showMonthly s |}
  end.

(** [showHistorical.value ? 'historical' :
     (showMonthly.value ? 'monthly' : 'recent')] *)
Definition currentDataType (s : State) : string :=
  if showHistorical s then "historical"
  else if showMonthly s then "monthly" else "recent".

Definition select (c : City.t) (s : State) : State :=
  {| chartData := chartData s; loading := loading s; error := error s;
     selectedCity := Some c;
     showHistorical := showHistorical s; showMonthly := showMonthly s |}.

Definition handleCitySelect (city : City.t) (s : State) : State * list Request :=
  let s1 := select city s in
  fetchCityData (City.name city) (currentDataType s1) s1.

Definition selectMajorCity (cityName : string) (s : State)
  : State * list Request :=
  let s1 := select (major_city cityName) s in
  fetchCityData cityName (currentDataType s1) s1.

Definition toggleDataType (dataType : string) (s : State)
  : State * list Request :=
  match selectedCity s with
  | Some c =>
      let wasHistorical := showHistorical s in
      let wasMonthly := showMonthly s in
      let s1 :=
        {| chartData := chartData s; loading := loading s; error := error s;
           selectedCity := selectedCity s;
           showHistorical := dataType =? "historical";
           showMonthly := dataType =? "monthly" |} in
      if negb (Bool.eqb wasHistorical (showHistorical s1))
         || negb (Bool.eqb wasMonthly (showMonthly s1))
      then fetchCityData (City.name c) dataType s1
      else (s1, [])
  | None => (s, [])
  end.

Definition toggleHistorical (value : bool) (s : State) : State * list Request :=
  toggleDataType (if value then "historical" else "recent") s.

Definition goBackToAllCities (s : State) : State * list Request :=
  fetchAllCitiesData
    {| chartData := chartData s; loading := loading s; error := error s;
       selectedCity := None; showHistorical := false; showMonthly := false |}.

(** What the user and the network do to the view. *)
Inductive Event : Type :=
| Mounted
| CitySelected (city : City.t)
| MajorCityClicked (cityName : string)
| DataTypeClicked (dataType : string)
| BackClicked
| Settled (n : nat) (r : Axios.Result Payload.t).

(** The view with its requests: those still pending, in the order they
    were made, and the URL of every request made so far.  [Settled n r]
    settles the [n]-th pending request, whichever it is: responses may
    arrive in any order. *)
Record System : Type := {
  state : State;
  inflight : list Request;
  sent : list string
}.

Definition boot : System :=
  {| state := initial; inflight := []; sent := [] |}.

Definition call (handler : State -> State * list Request) (sys : System)
  : System :=
  let (s, requests) := handler (state sys) in
  {| state := s;
     inflight := inflight sys ++ requests;
     sent := sent sys ++ map url requests |}.

Definition resume (a : Awaiting) (r : Axios.Result Payload.t) (s : State)
  : State :=
  match a with
  | AllCities => fetchAllCitiesData_resume r s
  | CityData cityName => fetchCityData_resume cityName r s
  end.

Definition step (sys : System) (e : Event) : System :=
  match e with
  | Mounted => call fetchAllCitiesData sys
  | CitySelected city => call (handleCitySelect city) sys
  | MajorCityClicked cityName => call (selectMajorCity cityName) sys
  | DataTypeClicked dataType => call (toggleDataType dataType) sys
  | BackClicked => call goBackToAllCities sys
  | Settled n r =>
      match inflight sys !! n with
      | Some request =>
          {| state := resume (awaiting request) r (state sys);
             inflight := delete n (inflight sys);
             sent := sent sys |}
      | None => sys
      end
  end.

Definition run (events : list Event) (sys : System) : System :=
  fold_left step events sys.

End App.

(** ** The older copy of App.vue: no period toggle *)

Module AppSimple.

Record State : Type := {
  chartData : option Payload.t;
  loading : bool;
  error : string;
  selectedCity : option City.t
}.

Definition initial : State :=
  {| chartData := None; loading := true; error := ""; selectedCity := None |}.

Definition chartTitle (s : State) : string :=
  match selectedCity s with
  | Some c => "Temperature Data for " +:+ City.name c
  | None => "Temperature Data for Major Swedish Cities"
  end.

Section WithOrigin.
(** [window.location.origin] *)
Variable origin : string.

Definition fetchAllCitiesData (s : State) : State * list Request :=
  ({| chartData := chartData s; loading := true; error := "";
      selectedCity := None |},
   [ {| url := origin +:+ "/api/graph/cities"; awaiting := AllCities |} ]).

Definition fetchAllCitiesData_resume (r : Axios.Result Payload.t)
  (s : State) : State :=
  match r with
  | Axios.Resolved _ body =>
      {| chartData := Some body; loading := false; error := error s;
         selectedCity := selectedCity s |}
  | _ =>
      {| chartData := chartData s; loading := false;
         error := "Failed to load temperature data. Please try again later.";
         selectedCity := selectedCity s |}
  end.

Definition fetchCityData (cityName : string) (s : State)
  : State * list Request :=
  ({| chartData := chartData s; loading := true; error := "";
      selectedCity := selectedCity s |},
   [ {| url := origin +:+ "/api/graph/city/" +:+ cityName;
        awaiting := CityData cityName |} ]).

Definition fetchCityData_resume (cityName : string)
  (r : Axios.Result Payload.t) (s : State) : State :=
  match r with
  | Axios.Resolved _ body =>
      {| chartData := Some body; loading := false; error := error s;
         selectedCity := selectedCity s |}
  | _ =>
      {| chartData := None; loading := false;
         error := "Failed to load data for " +:+ cityName
                    +:+ ". Please try again.";
         selectedCity := selectedCity s |}
  end.

Definition select (c : City.t) (s : State) : State :=
  {| chartData := chartData s; loading := loading s; error := error s;
     selectedCity := Some c |}.

Definition handleCitySelect (city : City.t) (s : State)
  : State * list Request :=
  fetchCityData (City.name city) (select city s).

Definition selectMajorCity (cityName : string) (s : State)
  : State * list Request :=
  fetchCityData cityName (select (major_city cityName) s).

Definition goBackToAllCities (s : State) : State * list Request :=
  fetchAllCitiesData
    {| chartData := chartData s; loading := loading s; error := error s;
       selectedCity := None |}.

Inductive Event : Type :=
| Mounted
| CitySelected (city : City.t)
| MajorCityClicked (cityName : string)
| BackClicked
| Settled (n : nat) (r : Axios.Result Payload.t).

Record System : Type := {
  state : State;
  inflight : list Request;
  sent : list string
}.

Definition boot : System :=
  {| state := initial; inflight := []; sent := [] |}.

Definition call (handler : State -> State * list Request) (sys : System)
  : System :=
  let (s, requests) := handler (state sys) in
  {| state := s;
     inflight := inflight sys ++ requests;
     sent := sent sys ++ map url requests |}.

Definition resume (a : Awaiting) (r : Axios.Result Payload.t) (s : State)
  : State :=
  match a with
  | AllCities => fetchAllCitiesData_resume r s
  | CityData cityName => fetchCityData_resume cityName r s
  end.

Definition step (sys : System) (e : Event) : System :=
  match e with
  | Mounted => call fetchAllCitiesData sys
  | CitySelected city => call (handleCitySelect city) sys
  | MajorCityClicked cityName => call (selectMajorCity cityName) sys
  | BackClicked => call goBackToAllCities sys
  | Settled n r =>
      match inflight sys !! n with
      | Some request =>
          {| state := resume (awaiting request) r (state sys);
             inflight := delete n (inflight sys);
             sent := sent sys |}
      | None => sys
      end
  end.

Definition run (events : list Event) (sys : System) : System :=
  fold_left step events sys.

End WithOrigin.


End AppSimple.

(** ** TemperatureChart.vue: the chart object and its lifecycle *)

Module ChartLifecycle.
Import TemperatureChart.

(** A [Chart] object made by [new Chart]: the configuration it was made
    from, and whether [destroy] has been called on it. *)
Record Instance : Type := {
  config : ChartConfig;
  destroyed : bool
}.

(** The variable [chart] (the index of the object it refers to) and every
    [Chart] object made so far, in the order they were made. *)
Record State : Type := {
  chart : option nat;
  instances : list Instance
}.

(** What [createChart] reads when it runs: whether the canvas ref is
    set, and the two props. *)
Record Inputs : Type := {
  chartCanvas : bool;
  props_data : option Payload.t;
  props_title : string
}.

(** [let chart = null] *)
Definition setup : State := {| chart := None; instances := [] |}.

(** [chart.destroy()] on the object at index [i] *)
Definition destroy (i : nat) (l : list Instance) : list Instance :=
  alter (fun x => {| config := config x; destroyed := true |}) i l.

Section WithRandom.
Variable Math_random : nat -> Q.

(** [createChart] with its effect on [chart]: nothing when it returns
    early, otherwise a new object, to which [chart] now refers. *)
Definition createChart_run (i : Inputs) (s : State) : Rand State :=
  let* made := createChart Math_random (chartCanvas i) (props_data i)
                 (props_title i) in
  ret match made with
      | Some cfg =>
          {| chart := Some (length (instances s));
             instances := instances s ++ [ {| config := cfg; destroyed := false |} ] |}
      | None => s
      end.

Definition onMounted (i : Inputs) (s : State) : Rand State :=
  createChart_run i s.

(** The callback of [watch(() => props.data, ...)]. *)
Definition on_data_change (i : Inputs) (s : State) : Rand State :=
  createChart_run i
    match chart s with
    | Some c => {| chart := chart s; instances := destroy c (instances s) |}
    | None => s
    end.

Fixpoint on_data_changes (changes : list Inputs) (s : State) : Rand State :=
  match changes with
  | [] => ret s
  | i :: rest =>
      let* s1 := on_data_change i s in
      on_data_changes rest s1
  end.

(** The component from [setup] on: mounted once, then the watcher run
    once per change of [props.data]. *)
Definition lifecycle (first : Inputs) (changes : list Inputs) : Rand State :=
  let* s := onMounted first setup in
  on_data_changes changes s.

End WithRandom.

End ChartLifecycle.

(** ** The older copy of TemperatureChart.vue *)

(** Its palette, [getCityColor], loop over the cities and average block
    are those of TemperatureChart.vue, letter for letter; the single-city
    dataset and the configuration differ. *)
Module TemperatureChartOld.
Import TemperatureChart.

Section WithRandom.
Variable Math_random : nat -> Q.

(** The [else if (props.data.temperatures)] branch. *)
Definition single_city_dataset (d : Payload.t) (temperatures : list reading)
  : Rand (list Dataset) :=
  let* border := getCityColor Math_random (JS.print (Payload.city d)) in
  let* background := getCityColor Math_random (JS.print (Payload.city d)) in
  ret [ {| label := JS.text_string (Payload.city d);
           data := temperatures;
           borderColor := border;
           backgroundColor := background;
           borderWidth := None;
           tension := 3 # 10;
           pointRadius := 3 |} ].

Definition build_datasets (d : Payload.t) : Rand (list Dataset) :=
  let* per_city :=
    match Payload.cities d with
    | Some cities => city_datasets Math_random cities
    | None =>
        match Payload.temperatures d with
        | Some temperatures => single_city_dataset d temperatures
        | None => ret []
        end
    end in
  ret (per_city ++ average_dataset d).

Definition createChart (chartCanvas : bool) (props_data : option Payload.t)
  (props_title : string) : Rand (option ChartConfig) :=
  match chartCanvas, props_data with
  | true, Some d =>
      let* datasets := build_datasets d in
      ret (Some {| type := "line";
                   labels := Payload.months d;
                   datasets := datasets;
                   title_text := OneLine props_title;
                   y_title_text := "Temperature (°C)";
                   x_title_text := "Month";
                   x_ticks := None |})
  | _, _ => ret None
  end.

End WithRandom.

End TemperatureChartOld.

(** * Properties *)

(** ** Vocabulary of the statements *)

(** The tick limits the chart sets for a long historical axis. *)
Definition thinning : TemperatureChart.Ticks :=
  {| TemperatureChart.maxTicksLimit := 20;
     TemperatureChart.maxRotation := 45;
     TemperatureChart.minRotation := 45 |}.

(** The six names of the fixed palette. *)
Definition palette_names : list string :=
  [ "Stockholm"; "Göteborg"; "Malmö"; "Uppsala"; "Umeå"; "Average" ].

(** The names whose colors a payload asks for, one per dataset, in the
    order of the datasets. *)
Definition dataset_names (d : Payload.t) : list string :=
  match Payload.cities d with
  | Some entries => map fst entries
  | None =>
      match Payload.temperatures d with
      | Some _ => [ JS.print (Payload.city d) ]
      | None => []
      end
  end
  ++ match Payload.average d with
     | Some _ => [ "Average" ]
     | None => []
     end.

(** A dataset with its two colors blanked. *)
Definition forget_colors (x : TemperatureChart.Dataset)
  : TemperatureChart.Dataset :=
  {| TemperatureChart.label := TemperatureChart.label x;
     TemperatureChart.data := TemperatureChart.data x;
     TemperatureChart.borderColor := TemperatureChart.ColorString "";
     TemperatureChart.backgroundColor := TemperatureChart.ColorString "";
     TemperatureChart.borderWidth := TemperatureChart.borderWidth x;
     TemperatureChart.tension := TemperatureChart.tension x;
     TemperatureChart.pointRadius := TemperatureChart.pointRadius x |}.

(** Two datasets built for [name] by two compositions: they agree on
    everything but their colors, and on the colors too when [name] is in
    the palette. *)
Definition same_up_to_random_color (name : string)
  (x y : TemperatureChart.Dataset) : Prop :=
  forget_colors x = forget_colors y /\ (In name palette_names -> x = y).

(** A dataset built for [name] carries the palette color of [name], when
    the palette has one. *)
Definition has_palette_color (name : string) (x : TemperatureChart.Dataset)
  : Prop :=
  forall c, TemperatureChart.lookup_color name TemperatureChart.CITY_COLORS = Some c ->
            TemperatureChart.borderColor x = TemperatureChart.ColorString c
            /\ TemperatureChart.backgroundColor x
               = TemperatureChart.ColorString c.

(** A payload with its single-city properties removed. *)
Definition without_single_city (d : Payload.t) : Payload.t :=
  {| Payload.months := Payload.months d;
     Payload.cities := Payload.cities d;
     Payload.average := Payload.average d;
     Payload.city := JS.Absent;
     Payload.temperatures := None;
     Payload.station_name := None;
     Payload.station_id := None;
     Payload.period := Payload.period d;
     Payload.time_range := Payload.time_range d |}.

(** The three periods of the toggle, and the string each button passes. *)
Inductive Period : Type := recent | monthly | historical.

Definition period_name (p : Period) : string :=
  match p with
  | recent => "recent"
  | monthly => "monthly"
  | historical => "historical"
  end.

Definition period_endpoint (p : Period) (cityName : string) : string :=
  match p with
  | recent => "/api/graph/city/" +:+ cityName
  | monthly => "/api/graph/monthly/" +:+ cityName
  | historical => "/api/graph/historical/" +:+ cityName
  end.

(** A city without the two properties the toggle view adds to it. *)
Definition as_received (c : City.t) : City.t :=
  {| City.id := City.id c;
     City.name := City.name c;
     City.latitude := City.latitude c;
     City.longitude := City.longitude c;
     City.station_name := None;
     City.station_id := None |}.

(** A search request for a query of at least two characters. *)
Definition accepted_search (origin url : string) : Prop :=
  exists query, (2 <= JS.length query)%nat
                /\ url = origin +:+ "/api/cities/search/" +:+ query.

(** A way for a fetch to settle that is a rejection with status 404. *)
Definition is_404 (r : Axios.Result Payload.t) : bool :=
  match r with
  | Axios.RejectedResponse status _ => (status =? 404)%Z
  | _ => false
  end.


(** The two period flags of the toggle view are not set together. *)
Definition flags_exclusive (s : App.State) : Prop :=
  App.showHistorical s && App.showMonthly s = false.



(** The words the title of the toggle view appends for each period. *)
Definition period_label (p : Period) : string :=
  match p with
  | recent => " (Recent)"
  | monthly => " (Monthly)"
  | historical => " (Historical)"
  end.

(** The latest request of the toggle view is the one its selection
    calls for, and its title names the same city and period. *)
Definition latest_matches (sys : App.System) : Prop :=
  match App.selectedCity (App.state sys) with
  | Some c =>
      exists p,
        App.currentDataType (App.state sys) = period_name p
        /\ last (App.sent sys) = Some (period_endpoint p (City.name c))
        /\ App.chartTitle (App.state sys)
           = "Temperature Data for " +:+ City.name c +:+ period_label p
  | None =>
      App.chartTitle (App.state sys) = "Temperature Data for Major Swedish Cities"
      /\ (App.sent sys = [] \/ last (App.sent sys) = Some "/api/graph/cities")
  end.

(** The toggle view has no request pending only when it has made none or
    its loading flag is off. *)
Definition idle_means_loaded (sys : App.System) : Prop :=
  App.inflight sys = [] ->
  App.sent sys = [] \/ App.loading (App.state sys) = false.

(** The string [getCityColor] builds from three color channels. *)
Definition rgb (r g b : Z) : string :=
  "rgb(" +:+ JS.number_to_string r +:+ ", " +:+ JS.number_to_string g
    +:+ ", " +:+ JS.number_to_string b +:+ ")".

(** The color channel made from the [n]-th draw:
    [Math.floor(draw * 255)], the product being a double. *)
Definition channel (rnd : nat -> Q) (n : nat) : Z :=
  Qfloor (JS.double (rnd n * 255)).

(** Whether a name is outside the fixed palette. *)
Definition outside_palette (name : string) : bool :=
  negb (existsb (String.eqb name) palette_names).

(** Whether a name gets a random color: it is neither in the palette
    nor one of the names every object inherits. *)
Definition random_colored (name : string) : bool :=
  outside_palette name && negb (JS.inherited name).

(** The largest double below 1. *)
Definition largest_draw : Q := 9007199254740991 # 9007199254740992.

(** The names of a payload's city datasets (the average left out). *)
Definition city_names (d : Payload.t) : list string :=
  match Payload.cities d with
  | Some entries => map fst entries
  | None =>
      match Payload.temperatures d with
      | Some _ => [ JS.print (Payload.city d) ]
      | None => []
      end
  end.

(** A payload on which the newer chart has nothing to add: neither
    historical nor monthly, and no station name to show beside the city. *)
Definition plain_payload (d : Payload.t) : Prop :=
  Payload.period d <> Some "historical"
  /\ Payload.period d <> Some "monthly"
  /\ (Payload.station_name d = None
      \/ Payload.station_name d = Some ""
      \/ Payload.station_name d = JS.text_string (Payload.city d)).

(** A dataset with its label removed. *)
Definition forget_label (x : TemperatureChart.Dataset)
  : TemperatureChart.Dataset :=
  {| TemperatureChart.label := None;
     TemperatureChart.data := TemperatureChart.data x;
     TemperatureChart.borderColor := TemperatureChart.borderColor x;
     TemperatureChart.backgroundColor := TemperatureChart.backgroundColor x;
     TemperatureChart.borderWidth := TemperatureChart.borderWidth x;
     TemperatureChart.tension := TemperatureChart.tension x;
     TemperatureChart.pointRadius := TemperatureChart.pointRadius x |}.

(** Every chart object but the one [chart] refers to has been destroyed. *)
Definition one_live (s : ChartLifecycle.State) : Prop :=
  forall (i : nat) (x : ChartLifecycle.Instance),
    ChartLifecycle.instances s !! i = Some x ->
    ChartLifecycle.destroyed x = false ->
    ChartLifecycle.chart s = Some i.

(** The search box shows its loading state only while a request is
    pending. *)
Definition busy_means_pending (sys : CitySearch.System) : Prop :=
  CitySearch.loading (CitySearch.state sys) = true ->
  CitySearch.inflight sys <> [].

(** The four kinds of request the toggle view makes. *)
Definition graph_request (url : string) : Prop :=
  url = "/api/graph/cities"
  \/ exists p cityName, url = period_endpoint p cityName.

(** With no city selected the toggle view is on the recent period. *)
Definition unselected_is_recent (s : App.State) : Prop :=
  App.selectedCity s = None ->
  App.showHistorical s = false /\ App.showMonthly s = false.

(** Sample data for the examples. *)
Definition thirty_one_months : list string := repeat "2020-01" 31.

Definition sample_payload (period : option string) (range : option TimeRange)
  : Payload.t :=
  {| Payload.months := Some thirty_one_months;
     Payload.cities := None;
     Payload.average := None;
     Payload.city := JS.Str "Stockholm";
     Payload.temperatures := Some (repeat None 31);
     Payload.station_name := Some "Stockholm A";
     Payload.station_id := Some 98230%Z;
     Payload.period := period;
     Payload.time_range := range |}.

Definition sample_cities : Payload.t :=
  {| Payload.months := Some [ "Jan"; "Feb" ];
     Payload.cities := Some [ ("Stockholm", [ Some (1 # 2)%Q; None ]);
                              ("Lund", [ None; Some (3 # 1)%Q ]) ];
     Payload.average := Some [ Some (1 # 2)%Q; Some (3 # 1)%Q ];
     Payload.city := JS.Str "Kiruna";
     Payload.temperatures := Some [ None; None ];
     Payload.station_name := None;
     Payload.station_id := None;
     Payload.period := None;
     Payload.time_range := None |}.

Definition sample_city : City.t :=
  {| City.id := Some 98210%Z;
     City.name := "Stockholm";
     City.latitude := Some (593 # 10)%Q;
     City.longitude := Some (18 # 1)%Q;
     City.station_name := None;
     City.station_id := None |}.

(** Draws that are doubles: sixteenths. *)
Definition sixteenths : nat -> Q := fun n => (Z.of_nat (n mod 16) # 16)%Q.

Definition no_random : nat -> Q := fun _ => 0%Q.
Definition some_random : nat -> Q := fun n => (Z.of_nat (n mod 10) # 10)%Q.

(** ** Chart composition *)

Section ChartComposition.
Import TemperatureChart.

Lemma palette_color_fixed (name c : string) :
  lookup_color name CITY_COLORS = Some c ->
  In name palette_names /\ JS.truthy_string (Some c) = true.
Proof.
  unfold CITY_COLORS, palette_names. cbn [lookup_color].
  repeat match goal with
         | |- context [String.eqb ?k name] =>
             destruct (String.eqb_spec k name) as [<- | _]
         end;
    intros H; inversion H; subst; split; cbn; auto 10.
Qed.

Lemma palette_lookup (name : string) :
  In name palette_names -> exists c, lookup_color name CITY_COLORS = Some c.
Proof.
  unfold palette_names. cbn [In].
  intros [<- | [<- | [<- | [<- | [<- | [<- | []]]]]]]; eexists; reflexivity.
Qed.

Lemma getCityColor_palette (rnd : nat -> Q) (name c : string) (n : nat) :
  lookup_color name CITY_COLORS = Some c ->
  getCityColor rnd name n = (ColorString c, n).
Proof.
  intros H. destruct (palette_color_fixed _ _ H) as [_ Ht].
  unfold getCityColor. rewrite H, Ht. reflexivity.
Qed.

Lemma getCityColor_independent (rnd1 rnd2 : nat -> Q) (name : string)
  (n1 n2 : nat) :
  In name palette_names ->
  fst (getCityColor rnd1 name n1) = fst (getCityColor rnd2 name n2).
Proof.
  intros [c Hc]%palette_lookup.
  rewrite !(getCityColor_palette _ _ _ _ Hc). reflexivity.
Qed.

(** What the loop over the cities builds, whatever the colors. *)
Lemma city_datasets_shape (rnd : nat -> Q) (entries : list (string * list reading)) :
  forall n,
    map forget_colors (fst (city_datasets rnd entries n))
    = map (fun e => {| label := Some (fst e); data := snd e;
                       borderColor := ""; backgroundColor := "";
                       borderWidth := None; tension := 3 # 10;
                       pointRadius := 3 |}) entries.
Proof.
  induction entries as [| [cityName temperatures] rest IH]; intros n.
  - reflexivity.
  - cbn [city_datasets]. unfold bind.
    destruct (getCityColor rnd cityName n) as [border n1].
    destruct (getCityColor rnd cityName n1) as [background n2].
    specialize (IH n2).
    destruct (city_datasets rnd rest n2) as [more n3].
    cbn in *. rewrite IH. reflexivity.
Qed.

Lemma city_datasets_labels_data (rnd : nat -> Q)
  (entries : list (string * list reading)) (n : nat) :
  map label (fst (city_datasets rnd entries n))
  = map (fun e => Some (fst e)) entries
  /\ map data (fst (city_datasets rnd entries n)) = map snd entries.
Proof.
  pose proof (city_datasets_shape rnd entries n) as Hs. split.
  - apply (f_equal (map label)) in Hs.
    rewrite !List.map_map in Hs. exact Hs.
  - apply (f_equal (map data)) in Hs.
    rewrite !List.map_map in Hs. exact Hs.
Qed.

(** With a [cities] mapping, the datasets are those of the loop and then
    the average's. *)
Lemma build_datasets_cities (rnd : nat -> Q) (d : Payload.t)
  (entries : list (string * list reading)) (n : nat) :
  Payload.cities d = Some entries ->
  fst (build_datasets rnd d n)
  = fst (city_datasets rnd entries n) ++ average_dataset d.
Proof.
  intros Hc. unfold build_datasets, bind. rewrite Hc.
  destruct (city_datasets rnd entries n). reflexivity.
Qed.

(** Two runs of the loop differ in the colors of the names outside the
    palette, and in nothing else. *)
Lemma city_datasets_agree (rnd1 rnd2 : nat -> Q)
  (entries : list (string * list reading)) :
  forall n1 n2,
    Forall3 same_up_to_random_color
      (map fst entries)
      (fst (city_datasets rnd1 entries n1))
      (fst (city_datasets rnd2 entries n2)).
Proof.
  induction entries as [| [cityName temperatures] rest IH]; intros n1 n2.
  - constructor.
  - cbn [city_datasets map fst]. unfold bind.
    pose proof (getCityColor_independent rnd1 rnd2 cityName n1 n2) as Hb.
    destruct (getCityColor rnd1 cityName n1) as [b1 m1].
    destruct (getCityColor rnd2 cityName n2) as [b2 m2].
    pose proof (getCityColor_independent rnd1 rnd2 cityName m1 m2) as Hg.
    destruct (getCityColor rnd1 cityName m1) as [g1 k1].
    destruct (getCityColor rnd2 cityName m2) as [g2 k2].
    specialize (IH k1 k2).
    destruct (city_datasets rnd1 rest k1) as [more1 j1].
    destruct (city_datasets rnd2 rest k2) as [more2 j2].
    cbn in *. constructor; [| exact IH].
    split; [reflexivity |].
    intros Hin. rewrite (Hb Hin), (Hg Hin). reflexivity.
Qed.

Lemma single_city_agree (rnd1 rnd2 : nat -> Q) (d : Payload.t)
  (temperatures : list reading) (n1 n2 : nat) :
  Forall3 same_up_to_random_color
    [ JS.print (Payload.city d) ]
    (fst (single_city_dataset rnd1 d temperatures n1))
    (fst (single_city_dataset rnd2 d temperatures n2)).
Proof.
  unfold single_city_dataset, bind.
  set (name := JS.print (Payload.city d)).
  pose proof (getCityColor_independent rnd1 rnd2 name n1 n2) as Hb.
  destruct (getCityColor rnd1 name n1) as [b1 m1].
  destruct (getCityColor rnd2 name n2) as [b2 m2].
  pose proof (getCityColor_independent rnd1 rnd2 name m1 m2) as Hg.
  destruct (getCityColor rnd1 name m1) as [g1 k1].
  destruct (getCityColor rnd2 name m2) as [g2 k2].
  cbn in *. repeat constructor.
  intros Hin. rewrite (Hb Hin), (Hg Hin). reflexivity.
Qed.

Lemma average_dataset_agree (d : Payload.t) :
  Forall3 same_up_to_random_color
    match Payload.average d with Some _ => [ "Average" ] | None => [] end
    (average_dataset d) (average_dataset d).
Proof.
  unfold average_dataset. destruct (Payload.average d); repeat constructor.
Qed.

Lemma build_datasets_agree (rnd1 rnd2 : nat -> Q) (d : Payload.t)
  (n1 n2 : nat) :
  Forall3 same_up_to_random_color
    (dataset_names d)
    (fst (build_datasets rnd1 d n1))
    (fst (build_datasets rnd2 d n2)).
Proof.
  unfold build_datasets, dataset_names, bind.
  destruct (Payload.cities d) as [entries |].
  - pose proof (city_datasets_agree rnd1 rnd2 entries n1 n2) as H.
    destruct (city_datasets rnd1 entries n1), (city_datasets rnd2 entries n2).
    cbn [fst] in *. apply Forall3_app; [exact H | apply average_dataset_agree].
  - destruct (Payload.temperatures d) as [temperatures |].
    + pose proof (single_city_agree rnd1 rnd2 d temperatures n1 n2) as H.
      destruct (single_city_dataset rnd1 d temperatures n1),
        (single_city_dataset rnd2 d temperatures n2).
      cbn [fst] in *. apply Forall3_app; [exact H | apply average_dataset_agree].
    + cbn [fst app]. apply average_dataset_agree.
Qed.

(** [createChart] builds a chart for every payload once the canvas is
    there, and this is its configuration. *)
Lemma createChart_total (rnd : nat -> Q) (d : Payload.t) (title : string)
  (n : nat) :
  createChart rnd true (Some d) title n
  = (Some {| type := "line";
             labels := Payload.months d;
             datasets := fst (build_datasets rnd d n);
             title_text := title_for d title;
             y_title_text := "Temperature (°C)";
             x_title_text := x_axis_title d;
             x_ticks := ticks_for d |},
     snd (build_datasets rnd d n)).
Proof.
  unfold createChart, bind, ret.
  destruct (build_datasets rnd d n). reflexivity.
Qed.

Lemma city_datasets_colors (rnd : nat -> Q)
  (entries : list (string * list reading)) :
  forall n,
    Forall2 has_palette_color (map fst entries)
      (fst (city_datasets rnd entries n)).
Proof.
  induction entries as [| [cityName temperatures] rest IH]; intros n.
  - constructor.
  - cbn [city_datasets map fst]. unfold bind.
    destruct (getCityColor rnd cityName n) as [b m] eqn:Hb.
    destruct (getCityColor rnd cityName m) as [g k] eqn:Hg.
    specialize (IH k).
    destruct (city_datasets rnd rest k) as [more j].
    cbn [fst ret] in *. constructor; [| exact IH].
    intros c Hc. cbn.
    rewrite (getCityColor_palette _ _ _ n Hc) in Hb.
      rewrite (getCityColor_palette _ _ _ m Hc) in Hg.
    split; congruence.
Qed.

Lemma build_datasets_colors (rnd : nat -> Q) (d : Payload.t) (n : nat) :
  Forall2 has_palette_color (dataset_names d) (fst (build_datasets rnd d n)).
Proof.
  assert (Havg : Forall2 has_palette_color
                   match Payload.average d with
                   | Some _ => [ "Average" ] | None => [] end
                   (average_dataset d)).
  { unfold average_dataset.
    destruct (Payload.average d); constructor; [| constructor].
    intros c Hc. cbn in *. split; congruence. }
  unfold build_datasets, dataset_names, bind.
  destruct (Payload.cities d) as [entries |].
  - pose proof (city_datasets_colors rnd entries n) as H.
    destruct (city_datasets rnd entries n).
    cbn [fst ret] in *. apply Forall2_app; assumption.
  - destruct (Payload.temperatures d) as [temperatures |].
    + unfold single_city_dataset, bind.
      destruct (getCityColor rnd (JS.print (Payload.city d)) n)
        as [b m] eqn:Hb.
      destruct (getCityColor rnd (JS.print (Payload.city d)) m)
        as [g k] eqn:Hg.
      cbn [fst ret]. apply Forall2_app; [| exact Havg].
      constructor; [| constructor]. intros c Hc. cbn.
      rewrite (getCityColor_palette _ _ _ n Hc) in Hb.
      rewrite (getCityColor_palette _ _ _ m Hc) in Hg.
      split; congruence.
    + cbn [fst ret app]. exact Havg.
Qed.

Lemma agree_on_palette (names : list string) (xs ys : list Dataset) :
  Forall3 same_up_to_random_color names xs ys ->
  Forall (fun name => In name palette_names) names ->
  xs = ys.
Proof.
  induction 1 as [| name x y names xs ys [_ Hxy] _ IH]; intros Hall.
  - reflexivity.
  - inversion Hall; subst. f_equal; auto.
Qed.

End ChartComposition.

Section ChartClaims.
Import TemperatureChart.

Local Ltac exists_shape xs ys :=
  eexists; eexists; exists xs, ys;
  split; [reflexivity |]; split; [| split; [| split; [| split]]].

(** C2, as stated, fails.  A payload with 31 month labels and no period
    (the shape of the recent and of the all-cities responses) gets no
    tick limits, and neither does a historical payload with 31 labels
    and no [time_range]: the limits are set inside the block guarded by
    [period === 'historical' && time_range]. *)
Lemma tick_policy_not_by_length_alone :
  (30 < length thirty_one_months)%nat
  /\ option_map x_ticks
       (fst (createChart no_random true (Some (sample_payload None None))
               "Temperature Data for Stockholm (Recent)" 0%nat))
     = Some None
  /\ option_map x_ticks
       (fst (createChart no_random true
               (Some (sample_payload (Some "historical") None))
               "Temperature Data for Stockholm (Historical)" 0%nat))
     = Some None.
Proof.
  split; [vm_compute; lia |].
  split; vm_compute; reflexivity.
Qed.

(** C2, amended.  Every payload is composed into a chart once the canvas
    is there, and the chart's tick limits are {maxTicksLimit: 20,
    maxRotation: 45, minRotation: 45} exactly when the payload's period
    is 'historical', its [time_range] is present and it has more than 30
    month labels; in every other case the chart has no tick limits. *)
Theorem tick_policy_rule (rnd : nat -> Q) (d : Payload.t) (title : string)
  (n : nat) :
  exists cfg n',
    createChart rnd true (Some d) title n = (Some cfg, n')
    /\ (x_ticks cfg = Some thinning
        <-> Payload.period d = Some "historical"
            /\ (exists range, Payload.time_range d = Some range)
            /\ (exists months, Payload.months d = Some months
                               /\ (30 < length months)%nat))
    /\ (x_ticks cfg = Some thinning \/ x_ticks cfg = None).
Proof.
  rewrite createChart_total. do 2 eexists. split; [reflexivity |].
  cbn [x_ticks]. unfold ticks_for, JS.strict_eq, JS.truthy_object.
  destruct (Payload.period d) as [p |]; cbn [andb].
  2: { split; [| auto]. split; [discriminate | intros [H _]; discriminate]. }
  destruct (String.eqb_spec p "historical") as [-> | Hp]; cbn [andb].
  2: { split; [| auto]. split; [discriminate |].
       intros [H _]. congruence. }
  destruct (Payload.time_range d) as [range |].
  2: { split; [| auto]. split; [discriminate |].
       intros (_ & [? H] & _). discriminate. }
  destruct (Payload.months d) as [months |].
  2: { split; [| auto]. split; [discriminate |].
       intros (_ & _ & [? [H _]]). discriminate. }
  destruct (Z.ltb_spec 30 (Z.of_nat (length months))) as [Hlt | Hge].
  - split; [| auto]. split; [| reflexivity].
    intros _. repeat split; eauto. exists months. split; [reflexivity | lia].
  - split; [| auto]. split; [discriminate |].
    intros (_ & _ & [ms [H Hlen]]). inversion H; subst. lia.
Qed.

(** C5.  For a multi-city payload the chart has one dataset per entry of
    [cities], in the entries' order, each labeled with its city name and
    carrying that city's readings, without a line width of its own; it
    has one more dataset exactly when [average] is present, and that one
    comes last, is labeled 'Average', carries the average readings, is
    black, and is drawn with line width 3 and point radius 4. *)
Theorem multi_city_datasets (rnd : nat -> Q) (d : Payload.t)
  (entries : list (string * list reading)) (title : string) (n : nat) :
  Payload.cities d = Some entries ->
  exists cfg n' per_city extra,
    createChart rnd true (Some d) title n = (Some cfg, n')
    /\ datasets cfg = per_city ++ extra
    /\ map label per_city = map (fun e => Some (fst e)) entries
    /\ map data per_city = map snd entries
    /\ Forall (fun x => borderWidth x = None /\ pointRadius x = 3%Z) per_city
    /\ match Payload.average d with
       | Some average =>
           extra = [ {| label := Some "Average";
                        data := average;
                        borderColor := "rgb(0, 0, 0)";
                        backgroundColor := "rgb(0, 0, 0)";
                        borderWidth := Some 3%Z;
                        tension := 3 # 10;
                        pointRadius := 4 |} ]
       | None => extra = []
       end.
Proof.
  intros Hc. rewrite createChart_total.
  destruct (city_datasets_labels_data rnd entries n) as [Hlabels Hdata].
  pose proof (city_datasets_shape rnd entries n) as Hs.
  exists_shape (fst (city_datasets rnd entries n)) (average_dataset d);
    try assumption.
  - cbn [datasets]. apply build_datasets_cities, Hc.
  - clear Hc Hlabels Hdata. revert Hs.
    generalize (fst (city_datasets rnd entries n)) as per_city.
    intros per_city. revert entries.
    induction per_city as [| x xs IH]; intros [| e es] Hs;
      try discriminate; constructor.
    + injection Hs; intros. split; assumption.
    + injection Hs; intros. eapply IH; eassumption.
  - unfold average_dataset. destruct (Payload.average d); reflexivity.
Qed.

Lemma multi_city_datasets_witness :
  Payload.cities sample_cities
  = Some [ ("Stockholm", [ Some (1 # 2)%Q; None ]);
           ("Lund", [ None; Some (3 # 1)%Q ]) ]
  /\ exists cfg n',
       createChart some_random true (Some sample_cities)
         "Temperature Data for Major Swedish Cities" 0%nat = (Some cfg, n')
       /\ map label (datasets cfg)
          = [ Some "Stockholm"; Some "Lund"; Some "Average" ].
Proof.
  split; [reflexivity |].
  destruct (multi_city_datasets some_random sample_cities _
              "Temperature Data for Major Swedish Cities" 0%nat eq_refl)
    as (cfg & n' & per_city & extra & Hcfg & Hds & Hlabels & _ & _ & Hextra).
  exists cfg, n'. split; [exact Hcfg |].
  cbn in Hextra. rewrite Hds, List.map_app, Hlabels, Hextra. reflexivity.
Defined.

(** C10.  When a payload has a [cities] mapping, its [temperatures],
    [city] and station properties contribute nothing: the chart is the
    one composed for the payload without them, and its datasets are the
    entries of [cities], followed by the average when there is one. *)
Theorem cities_take_precedence (rnd : nat -> Q) (d : Payload.t)
  (entries : list (string * list reading)) (title : string) (n : nat) :
  Payload.cities d = Some entries ->
  createChart rnd true (Some d) title n
  = createChart rnd true (Some (without_single_city d)) title n
  /\ exists cfg n',
       createChart rnd true (Some d) title n = (Some cfg, n')
       /\ map label (datasets cfg)
          = map (fun e => Some (fst e)) entries
            ++ match Payload.average d with
               | Some _ => [ Some "Average" ]
               | None => []
               end
       /\ map data (datasets cfg)
          = map snd entries
            ++ match Payload.average d with
               | Some average => [ average ]
               | None => []
               end.
Proof.
  intros Hc. split.
  - rewrite !createChart_total.
    unfold build_datasets, title_for, ticks_for, x_axis_title,
      average_dataset, without_single_city.
    cbn. rewrite Hc. reflexivity.
  - rewrite createChart_total. do 2 eexists. split; [reflexivity |].
    cbn [datasets]. rewrite (build_datasets_cities _ _ _ _ Hc).
    destruct (city_datasets_labels_data rnd entries n) as [Hlabels Hdata].
    rewrite !List.map_app, Hlabels, Hdata. unfold average_dataset.
    destruct (Payload.average d); split; reflexivity.
Qed.

Lemma cities_take_precedence_witness :
  Payload.cities sample_cities
  = Some [ ("Stockholm", [ Some (1 # 2)%Q; None ]);
           ("Lund", [ None; Some (3 # 1)%Q ]) ]
  /\ createChart some_random true (Some sample_cities) "All" 0%nat
     = createChart some_random true
         (Some (without_single_city sample_cities)) "All" 0%nat.
Proof.
  split; [reflexivity |].
  exact (proj1 (cities_take_precedence some_random sample_cities _
                  "All" 0%nat eq_refl)).
Defined.

(** C7.  Each of the six palette names gets its fixed color on every
    call, without a draw from the random source.  In every chart, of
    either payload shape and whatever the station name, a dataset
    built for a palette name carries that color.  Two compositions of
    one payload under one title, whatever the random source gives each,
    agree on the chart type, the labels, the title, the axis titles and
    the tick limits, and their datasets agree one by one on everything
    but the colors, and on the colors too where the name is in the
    palette; so they are the same chart when every name is in the
    palette. *)
Theorem composition_deterministic_on_palette :
  (forall (rnd : nat -> Q) (n : nat),
      getCityColor rnd "Stockholm" n = ("rgb(54, 162, 235)", n)
      /\ getCityColor rnd "Göteborg" n = ("rgb(255, 99, 132)", n)
      /\ getCityColor rnd "Malmö" n = ("rgb(75, 192, 192)", n)
      /\ getCityColor rnd "Uppsala" n = ("rgb(255, 159, 64)", n)
      /\ getCityColor rnd "Umeå" n = ("rgb(153, 102, 255)", n)
      /\ getCityColor rnd "Average" n = ("rgb(0, 0, 0)", n))
  /\ (forall (rnd : nat -> Q) (d : Payload.t) (title : string) (n : nat),
        exists cfg n',
          createChart rnd true (Some d) title n = (Some cfg, n')
          /\ Forall2 has_palette_color (dataset_names d) (datasets cfg))
  /\ (forall (rnd1 rnd2 : nat -> Q) (d : Payload.t) (title : string)
             (n1 n2 : nat),
        exists cfg1 cfg2 m1 m2,
          createChart rnd1 true (Some d) title n1 = (Some cfg1, m1)
          /\ createChart rnd2 true (Some d) title n2 = (Some cfg2, m2)
          /\ type cfg1 = type cfg2
          /\ labels cfg1 = labels cfg2
          /\ title_text cfg1 = title_text cfg2
          /\ y_title_text cfg1 = y_title_text cfg2
          /\ x_title_text cfg1 = x_title_text cfg2
          /\ x_ticks cfg1 = x_ticks cfg2
          /\ Forall3 same_up_to_random_color (dataset_names d)
               (datasets cfg1) (datasets cfg2)
          /\ (Forall (fun name => In name palette_names) (dataset_names d)
              -> cfg1 = cfg2)).
Proof.
  split; [| split].
  - intros rnd n. repeat split; apply getCityColor_palette; reflexivity.
  - intros rnd d title n. rewrite createChart_total.
    do 2 eexists. split; [reflexivity |]. apply build_datasets_colors.
  - intros rnd1 rnd2 d title n1 n2. rewrite !createChart_total.
    do 4 eexists. do 2 (split; [reflexivity |]).
    cbn [type labels title_text y_title_text x_title_text x_ticks datasets].
    do 6 (split; [reflexivity |]).
    pose proof (build_datasets_agree rnd1 rnd2 d n1 n2) as Hagree.
    split; [exact Hagree |].
    intros Hall. rewrite (agree_on_palette _ _ _ Hagree Hall). reflexivity.
Qed.

End ChartClaims.

(** ** The search box *)

Section SearchClaims.
Import CitySearch.
Variable origin : string.

Lemma searchCity_short (s : State) :
  (JS.length (searchTerm s) < 2)%nat ->
  searchCity origin s
  = ({| searchTerm := searchTerm s; results := results s;
        loading := loading s;
        error := "Please enter at least 2 characters" |}, None).
Proof.
  intros Hlen. unfold searchCity.
  destruct (Nat.ltb_spec (JS.length (searchTerm s)) 2); [| lia].
  rewrite orb_true_r. reflexivity.
Qed.

Lemma searchCity_long (s : State) :
  (2 <= JS.length (searchTerm s))%nat ->
  searchCity origin s
  = ({| searchTerm := searchTerm s; results := results s;
        loading := true; error := "" |},
     Some (origin +:+ "/api/cities/search/" +:+ searchTerm s)).
Proof.
  intros Hlen. unfold searchCity.
  destruct (Nat.ltb_spec (JS.length (searchTerm s)) 2); [lia |].
  destruct (searchTerm s) as [| a t]; [cbn in Hlen; lia |].
  reflexivity.
Qed.

Lemma sent_accepted_step (sys : System) (e : Event) :
  Forall (accepted_search origin) (sent sys) ->
  Forall (accepted_search origin) (sent (step origin sys e)).
Proof.
  intros Hsent. destruct e as [term | | city | n r]; cbn [step].
  - exact Hsent.
  - destruct (Nat.lt_ge_cases (JS.length (searchTerm (state sys))) 2)
      as [Hshort | Hlong].
    + rewrite (searchCity_short _ Hshort). cbn.
      rewrite app_nil_r. exact Hsent.
    + rewrite (searchCity_long _ Hlong). cbn.
      apply Forall_app. split; [exact Hsent |].
      constructor; [| constructor].
      exists (searchTerm (state sys)). split; [exact Hlong | reflexivity].
  - exact Hsent.
  - destruct (inflight sys !! n); exact Hsent.
Qed.

Lemma sent_accepted_run (events : list Event) :
  forall sys, Forall (accepted_search origin) (sent sys) ->
              Forall (accepted_search origin) (sent (run origin events sys)).
Proof.
  induction events as [| e events IH]; intros sys Hsent; cbn.
  - exact Hsent.
  - apply IH, sent_accepted_step, Hsent.
Qed.

(** C8.  A search with a query of length below 2 (in UTF-16 code units,
    as [.length] counts: the empty query, one letter, also a letter such
    as 'å') only sets the validation message: it makes no request, and
    the result list, the loading flag and the query stay as they are.
    Every request the search box ever makes carries a query of length at
    least 2, and the result list changes only when a pending request
    settles or when a candidate is picked. *)
Theorem short_query_rejected :
  (forall s : State,
      (JS.length (searchTerm s) < 2)%nat ->
      searchCity origin s
      = ({| searchTerm := searchTerm s; results := results s;
            loading := loading s;
            error := "Please enter at least 2 characters" |}, None))
  /\ (forall sys : System,
        (JS.length (searchTerm (state sys)) < 2)%nat ->
        let sys' := step origin sys SearchRequested in
        inflight sys' = inflight sys /\ sent sys' = sent sys
        /\ results (state sys') = results (state sys))
  /\ (forall events : list Event,
        Forall (accepted_search origin) (sent (run origin events boot)))
  /\ (forall (sys : System) (e : Event),
        results (state (step origin sys e)) <> results (state sys) ->
        (exists city, e = CityClicked city)
        \/ (exists n r url, e = Settled n r /\ inflight sys !! n = Some url)).
Proof.
  split; [exact searchCity_short |]. split; [| split].
  - intros sys Hshort. cbn [step]. rewrite (searchCity_short _ Hshort).
    cbn. rewrite !app_nil_r. auto.
  - intros events. apply sent_accepted_run. constructor.
  - intros sys [term | | city | n r] Hchanged.
    + cbn in Hchanged. congruence.
    + exfalso. apply Hchanged. cbn [step]. unfold searchCity.
      destruct (_ || _); reflexivity.
    + left. eauto.
    + right. cbn [step] in Hchanged.
      destruct (inflight sys !! n) as [url |] eqn:Hn; [eauto | congruence].
Qed.

End SearchClaims.

Lemma short_query_rejected_witness :
  (JS.length "å" < 2)%nat
  /\ CitySearch.searchCity "http://localhost"
       {| CitySearch.searchTerm := "å"; CitySearch.results := [ sample_city ];
          CitySearch.loading := false; CitySearch.error := "" |}
     = ({| CitySearch.searchTerm := "å"; CitySearch.results := [ sample_city ];
           CitySearch.loading := false;
           CitySearch.error := "Please enter at least 2 characters" |}, None).
Proof.
  split; [vm_compute; lia |].
  apply (proj1 (short_query_rejected "http://localhost")). vm_compute; lia.
Defined.


(** ** The toggle view *)

Section AppClaims.
Import App.

Lemma toggle_flags_exclusive (dataType : string) :
  (dataType =? "historical") && (dataType =? "monthly") = false.
Proof.
  destruct (String.eqb_spec dataType "historical") as [-> | _]; reflexivity.
Qed.

Lemma step_flags_exclusive (sys : System) (e : Event) :
  flags_exclusive (state sys) -> flags_exclusive (state (step sys e)).
Proof.
  unfold flags_exclusive. intros Hinv.
  destruct e as [| city | cityName | dataType | | n r];
    cbn [step call fetchAllCitiesData handleCitySelect selectMajorCity
           goBackToAllCities fetchCityData select state
           showHistorical showMonthly]; try reflexivity; try exact Hinv.
  - unfold call, toggleDataType.
    destruct (selectedCity (state sys)); [| exact Hinv].
    destruct (_ || _); cbn; apply toggle_flags_exclusive.
  - destruct (inflight sys !! n) as [request |]; [| exact Hinv].
    cbn [state]. destruct (awaiting request), r; exact Hinv.
Qed.

Lemma run_flags_exclusive (events : list Event) :
  forall sys, flags_exclusive (state sys) ->
              flags_exclusive (state (run events sys)).
Proof.
  induction events as [| e events IH]; intros sys Hinv; cbn.
  - exact Hinv.
  - apply IH, step_flags_exclusive, Hinv.
Qed.

Lemma reachable_flags_exclusive (events : list Event) :
  flags_exclusive (state (run events boot)).
Proof. apply run_flags_exclusive. reflexivity. Qed.

Lemma city_error_message_nonempty (cityName : string)
  (r : Axios.Result Payload.t) :
  city_error_message cityName r <> "".
Proof.
  unfold city_error_message.
  destruct r as [status body | status body | message]; try discriminate.
  destruct (status =? 404)%Z; [| discriminate].
  unfold JS.truthy_string, JS.to_string.
  destruct (Axios.detail body) as [d |]; [| discriminate].
  destruct (String.eqb_spec d ""); cbn; [discriminate | assumption].
Qed.

(** C1: what a failed fetch leaves behind.  A failed single-city fetch
    clears the chart data, clears the loading flag and sets a message.
    A failed all-cities fetch clears the loading flag and sets a
    message, and leaves the chart data as it was: after a chart has
    been shown, going back to all cities and losing the network leaves
    the earlier payload in [chartData]. *)
Theorem failed_fetch_outcome :
  (forall (cityName : string) (r : Axios.Result Payload.t) (s : State),
      Axios.failed r = true ->
      let s' := fetchCityData_resume cityName r s in
      chartData s' = None /\ loading s' = false /\ error s' <> "")
  /\ (forall (r : Axios.Result Payload.t) (s : State),
        Axios.failed r = true ->
        let s' := fetchAllCitiesData_resume r s in
        chartData s' = chartData s /\ loading s' = false
        /\ error s' = "Failed to load temperature data. Please try again later.")
  /\ (let sys := run [ Mounted;
                       Settled 0 (Axios.Resolved 200 sample_cities);
                       MajorCityClicked "Stockholm";
                       Settled 0 (Axios.Resolved 200 (sample_payload None None));
                       BackClicked;
                       Settled 0 (Axios.RejectedNoResponse "Network Error") ]
                   boot in
      chartData (state sys) = Some (sample_payload None None)
      /\ selectedCity (state sys) = None
      /\ loading (state sys) = false
      /\ error (state sys)
         = "Failed to load temperature data. Please try again later.").
Proof.
  split; [| split].
  - intros cityName r s Hfail.
    destruct r; try discriminate; unfold fetchCityData_resume;
      cbn [chartData loading error];
      repeat split; apply city_error_message_nonempty.
  - intros r s Hfail. destruct r; try discriminate; cbn; auto.
  - vm_compute. auto.
Qed.

(** C4, as stated, fails when the body of the 404 response contains an
    empty [detail]: the message is then not that detail but 'No data
    found for <city>', since the fallback of [||] takes over for every
    falsy detail. *)
Lemma empty_detail_not_surfaced :
  Axios.detail {| Axios.detail := Some "" |} = Some ""
  /\ error (fetchCityData_resume "Lund"
              (Axios.RejectedResponse 404 {| Axios.detail := Some "" |})
              initial)
     = "No data found for Lund"
  /\ error (fetchCityData_resume "Lund"
              (Axios.RejectedResponse 404 {| Axios.detail := Some "" |})
              initial)
     <> "".
Proof. split; [reflexivity |]. split; [reflexivity | discriminate]. Qed.

(** C4, amended.  When a single-city fetch is rejected with status 404,
    the message is the [detail] of the response body when that is a
    non-empty string, and 'No data found for <city>' when the body has
    no detail or an empty one.  Every
    other failure of a single-city fetch gives 'Failed to load data for
    <city>. Please try again.', and every failure of the all-cities
    fetch gives 'Failed to load temperature data. Please try again
    later.': neither depends on the status, the body or the failure's
    own message. *)
Theorem fetch_error_messages (cityName : string) (s : State) :
  (forall (d : string),
      d <> "" ->
      error (fetchCityData_resume cityName
               (Axios.RejectedResponse 404 {| Axios.detail := Some d |}) s)
      = d)
  /\ (forall (body : Axios.ErrorBody),
        Axios.detail body = None \/ Axios.detail body = Some "" ->
        error (fetchCityData_resume cityName
                 (Axios.RejectedResponse 404 body) s)
        = "No data found for " +:+ cityName)
  /\ (forall (r : Axios.Result Payload.t),
        Axios.failed r = true -> is_404 r = false ->
        error (fetchCityData_resume cityName r s)
        = "Failed to load data for " +:+ cityName +:+ ". Please try again.")
  /\ (forall (r : Axios.Result Payload.t),
        Axios.failed r = true ->
        error (fetchAllCitiesData_resume r s)
        = "Failed to load temperature data. Please try again later.").
Proof.
  split; [| split; [| split]].
  - intros d Hd. cbn. destruct (String.eqb_spec d ""); [contradiction |].
    reflexivity.
  - intros [detail] [H | H]; cbn in *; subst; reflexivity.
  - intros r Hfail H404. destruct r; try discriminate; cbn in *.
    + rewrite H404. reflexivity.
    + reflexivity.
  - intros r Hfail. destruct r; try discriminate; reflexivity.
Qed.

Lemma fetch_error_messages_witness :
  "No station data for X" <> ""
  /\ error (fetchCityData_resume "X"
              (Axios.RejectedResponse 404
                 {| Axios.detail := Some "No station data for X" |})
              initial)
     = "No station data for X".
Proof.
  split; [discriminate |].
  apply (proj1 (fetch_error_messages "X" initial)). discriminate.
Defined.

(** C6.  In every state the view can reach, a click on the button of
    period [p] does nothing when no city is selected or when [p] is
    already the period shown: the state, the pending requests and the
    requests made stay as they are.  Otherwise the period becomes [p],
    the selected city stays, and one request is made, to
    /api/graph/historical/<name>, /api/graph/monthly/<name> or
    /api/graph/city/<name> according to [p], for the name of the
    selected city. *)
Theorem set_period (events : list Event) (p : Period) :
  let sys := run events boot in
  (selectedCity (state sys) = None
   \/ currentDataType (state sys) = period_name p ->
   step sys (DataTypeClicked (period_name p)) = sys)
  /\ (forall c : City.t,
        selectedCity (state sys) = Some c ->
        currentDataType (state sys) <> period_name p ->
        let sys' := step sys (DataTypeClicked (period_name p)) in
        currentDataType (state sys') = period_name p
        /\ selectedCity (state sys') = Some c
        /\ inflight sys'
           = inflight sys
             ++ [ {| url := period_endpoint p (City.name c);
                     awaiting := CityData (City.name c) |} ]
        /\ sent sys' = sent sys ++ [ period_endpoint p (City.name c) ]
        /\ loading (state sys') = true
        /\ error (state sys') = ""
        /\ chartData (state sys') = chartData (state sys)).
Proof.
  intros sys.
  pose proof (reachable_flags_exclusive events) as Hinv.
  fold sys in Hinv. unfold flags_exclusive in Hinv.
  destruct sys as [[chart busy message selected h m] pending made].
  cbn [state showHistorical showMonthly] in Hinv.
  split.
  - intros Hnoop. unfold currentDataType in Hnoop.
    cbn [step call toggleDataType state selectedCity showHistorical
           showMonthly] in *.
    destruct selected as [c |].
    2: { cbn. rewrite !app_nil_r. reflexivity. }
    destruct Hnoop as [Hnone | Hsame]; [discriminate |].
    destruct h, m, p; try discriminate; cbn;
      rewrite !app_nil_r; reflexivity.
  - intros c Hsel Hother. unfold currentDataType in *.
    cbn [state selectedCity showHistorical showMonthly] in *. subst selected.
    destruct h, m, p; try discriminate; try contradiction;
      cbn; repeat split; reflexivity.
Qed.

Lemma set_period_witness :
  let sys := run [ Mounted; MajorCityClicked "Uppsala" ] boot in
  selectedCity (state sys) = Some (major_city "Uppsala")
  /\ currentDataType (state sys) <> period_name historical
  /\ sent (step sys (DataTypeClicked (period_name historical)))
     = [ "/api/graph/cities"; "/api/graph/city/Uppsala";
         "/api/graph/historical/Uppsala" ].
Proof.
  cbv zeta. split; [reflexivity |]. split; [discriminate |].
  destruct (proj2 (set_period [ Mounted; MajorCityClicked "Uppsala" ]
                     historical)
              (major_city "Uppsala") eq_refl)
    as (_ & _ & _ & Hsent & _).
  - discriminate.
  - exact Hsent.
Defined.

(** C3, as stated, fails.  A city received from the search is selected;
    when its fetch succeeds with a payload that names a station, the
    selected City object gets a [station_name] and a [station_id]. *)
Lemma selected_city_written_by_fetch :
  let sys := run [ Mounted; CitySelected sample_city ] boot in
  let sys' := step sys (Settled 1 (Axios.Resolved 200
                                     (sample_payload None None))) in
  selectedCity (state sys) = Some sample_city
  /\ selectedCity (state sys')
     = Some {| City.id := Some 98210%Z;
               City.name := "Stockholm";
               City.latitude := Some (593 # 10)%Q;
               City.longitude := Some (18 # 1)%Q;
               City.station_name := Some "Stockholm A";
               City.station_id := Some 98230%Z |}
  /\ selectedCity (state sys') <> selectedCity (state sys).
Proof. cbv zeta. split; [reflexivity |]. split; [reflexivity | discriminate]. Qed.

(** C3, amended.  No operation of the client changes the id, name,
    latitude or longitude of a City it has received.  Mounting and
    going back select no city; a selection makes the City it is given
    (or the one built for the major-cities button) the selected one, as
    it is; a period change leaves the selected City as it is.  When the
    response to a single-city request arrives and is a success whose
    payload has a non-empty [station_name], the payload's
    [station_name] and [station_id] are written onto the City selected
    at that moment (none, when no city is selected).  In every other
    case of a settling request (a failure, a payload without a station
    name, the all-cities request, no such pending request) the selected
    City stays exactly as it is. *)
Theorem city_fields_after_step (sys : System) (e : Event) :
  let before := selectedCity (state sys) in
  let after := selectedCity (state (step sys e)) in
  match e with
  | Mounted | BackClicked => after = None
  | CitySelected city => after = Some city
  | MajorCityClicked cityName =>
      exists c,
        after = Some c
        /\ City.name c = cityName
        /\ City.latitude c = None /\ City.longitude c = None
        /\ City.station_name c = None /\ City.station_id c = None
        /\ (forall station,
              lookup_station cityName MAJOR_CITIES = Some station ->
              City.id c = Some station)
  | DataTypeClicked _ => after = before
  | Settled n r =>
      option_map as_received after = option_map as_received before
      /\ match inflight sys !! n with
         | Some request =>
             match awaiting request, r with
             | CityData _, Axios.Resolved _ body =>
                 if JS.truthy_string (Payload.station_name body)
                 then after
                      = option_map
                          (fun c =>
                             {| City.id := City.id c;
                                City.name := City.name c;
                                City.latitude := City.latitude c;
                                City.longitude := City.longitude c;
                                City.station_name := Payload.station_name body;
                                City.station_id := Payload.station_id body |})
                          before
                 else after = before
             | _, _ => after = before
             end
         | None => after = before
         end
  end.
Proof.
  destruct e as [| city | cityName | dataType | | n r]; cbv zeta;
    try reflexivity.
  - eexists. split; [reflexivity |]. cbn. auto 10.
  - cbn [step]. unfold call, toggleDataType.
    destruct (selectedCity (state sys)) eqn:Hsel; [| cbn; exact Hsel].
    destruct (_ || _); cbn; first [exact Hsel | reflexivity].
  - cbn [step]. destruct (inflight sys !! n) as [request |]; [| auto].
    cbn [state]. destruct (awaiting request) as [| cityName].
    + destruct r; cbn; auto.
    + destruct r as [status body | status body | message]; cbn; auto.
      destruct (selectedCity (state sys)) as [c |];
        destruct (JS.truthy_string (Payload.station_name body)); auto.
Qed.

End AppClaims.

(** ** The two views *)

Section TwoViews.
Variable origin : string.










End TwoViews.


(** * Further properties of the code *)

(** ** The toggle view as a whole *)

Section AppRuns.
Import App.

Lemma endpoint_of_period (p : Period) (cityName : string) :
  endpoint cityName (period_name p) = period_endpoint p cityName.
Proof. destruct p; reflexivity. Qed.

(** The flags a click on a data-type button sets name a period, and the
    request made for that click is the request of that period. *)
Lemma toggle_names_period (dataType cityName : string) :
  exists p,
    (if dataType =? "historical" then "historical"
     else if dataType =? "monthly" then "monthly" else "recent")
    = period_name p
    /\ endpoint cityName dataType = period_endpoint p cityName
    /\ (if dataType =? "historical" then " (Historical)"
        else if dataType =? "monthly" then " (Monthly)" else " (Recent)")
       = period_label p.
Proof.
  unfold endpoint.
  destruct (dataType =? "historical");
    [exists historical | destruct (dataType =? "monthly");
                         [exists monthly | exists recent]];
    auto.
Qed.

Lemma current_names_period (s : State) (cityName : string) :
  exists p,
    currentDataType s = period_name p
    /\ endpoint cityName (currentDataType s) = period_endpoint p cityName
    /\ (if showHistorical s then " (Historical)"
        else if showMonthly s then " (Monthly)" else " (Recent)")
       = period_label p.
Proof.
  unfold currentDataType.
  destruct (showHistorical s);
    [exists historical | destruct (showMonthly s);
                         [exists monthly | exists recent]];
    auto.
Qed.

Lemma latest_matches_step (sys : System) (e : Event) :
  latest_matches sys -> latest_matches (step sys e).
Proof.
  destruct sys as [[chart busy message selected h m] pending made].
  unfold latest_matches, chartTitle. cbn -[last String.append].
  intros Hinv.
  destruct e as [| city | cityName | dataType | | n r].
  - cbn -[last String.append]. rewrite last_snoc. auto.
  - cbn -[last String.append]. rewrite last_snoc.
    destruct (current_names_period
                {| chartData := chart; loading := busy; error := message;
                   selectedCity := Some city; showHistorical := h;
                   showMonthly := m |} (City.name city))
      as (p & Hp & Hend & Hlabel).
    exists p. cbn -[String.append] in Hlabel. rewrite <- Hend, <- Hlabel. auto.
  - cbn -[last String.append]. rewrite last_snoc.
    destruct (current_names_period
                {| chartData := chart; loading := busy; error := message;
                   selectedCity := Some (major_city cityName);
                   showHistorical := h; showMonthly := m |} cityName)
      as (p & Hp & Hend & Hlabel).
    exists p. cbn -[String.append] in Hlabel. rewrite <- Hend, <- Hlabel. auto.
  - cbn [step]. unfold call, toggleDataType.
    cbn [state selectedCity showHistorical showMonthly].
    destruct selected as [c |];
      [| cbn -[last String.append]; rewrite app_nil_r; exact Hinv].
    destruct (toggle_names_period dataType (City.name c))
      as (p & Hp & Hend & Hlabel).
    destruct (_ || _) eqn:Hchanged.
    + cbn -[last String.append]. rewrite last_snoc. exists p.
      unfold currentDataType. cbn -[String.append].
      rewrite Hp, Hend, Hlabel. auto.
    + apply orb_false_elim in Hchanged as [Hh Hm].
      apply negb_false_iff, Bool.eqb_prop in Hh, Hm. subst h m.
      cbn -[last String.append]. rewrite app_nil_r. exact Hinv.
  - cbn -[last String.append]. rewrite last_snoc. auto.
  - cbn [step inflight]. destruct (pending !! n) as [request |];
      [| cbn -[last String.append]; exact Hinv].
    destruct (awaiting request) as [| cityName];
      destruct r as [status body | status body | failure];
      cbn -[last String.append]; try exact Hinv.
    destruct selected as [c |]; [| exact Hinv].
    destruct (JS.truthy_string (Payload.station_name body)); exact Hinv.
Qed.

Lemma latest_matches_run (events : list Event) :
  forall sys, latest_matches sys -> latest_matches (run events sys).
Proof.
  induction events as [| e events IH]; intros sys Hinv; cbn.
  - exact Hinv.
  - apply IH, latest_matches_step, Hinv.
Qed.

(** X1.  Whatever the user does and in whatever order responses arrive,
    the latest request the view has made is the one its selection calls
    for: with a city selected, the endpoint of the period shown for that
    city's name, and the title names that city and that period; with no
    city selected, /api/graph/cities (or no request yet), under the
    all-cities title. *)
Theorem latest_request_matches_selection (events : list Event) :
  let sys := run events boot in
  match selectedCity (state sys) with
  | Some c =>
      exists p,
        currentDataType (state sys) = period_name p
        /\ last (sent sys) = Some (period_endpoint p (City.name c))
        /\ chartTitle (state sys)
           = "Temperature Data for " +:+ City.name c +:+ period_label p
  | None =>
      chartTitle (state sys) = "Temperature Data for Major Swedish Cities"
      /\ (sent sys = [] \/ last (sent sys) = Some "/api/graph/cities")
  end.
Proof.
  apply (latest_matches_run events boot). cbn. auto.
Qed.

Lemma lookup_snoc {A : Type} (l : list A) (x : A) :
  (l ++ [ x ]) !! length l = Some x.
Proof. apply list_lookup_middle. reflexivity. Qed.

Lemma delete_snoc {A : Type} (l : list A) (x : A) :
  delete (length l) (l ++ [ x ]) = l.
Proof. rewrite delete_middle. apply app_nil_r. Qed.

Lemma lookup_snoc_snoc {A : Type} (l : list A) (x y : A) :
  ((l ++ [ x ]) ++ [ y ]) !! S (length l) = Some y.
Proof.
  apply list_lookup_middle. rewrite length_app. cbn. lia.
Qed.

Lemma delete_snoc_snoc {A : Type} (l : list A) (x y : A) :
  delete (S (length l)) ((l ++ [ x ]) ++ [ y ]) = l ++ [ x ].
Proof.
  replace (S (length l)) with (length (l ++ [ x ]))
    by (rewrite length_app; cbn; lia).
  apply delete_snoc.
Qed.

(** X2.  Responses take effect in the order they arrive, not in the
    order of the requests.  When city [a] is selected, then city [b],
    and the response for [b] arrives before the response for [a], the
    view ends with [b] selected and the payload of [a] as its chart
    data; and when that payload names a station, the station of [a] is
    written onto [b]. *)
Theorem responses_apply_in_arrival_order (sys : System) (a b : City.t)
  (status_a status_b : Z) (payload_a payload_b : Payload.t) :
  let k := length (inflight sys) in
  let sys' := run [ CitySelected a; CitySelected b;
                    Settled (S k) (Axios.Resolved status_b payload_b);
                    Settled k (Axios.Resolved status_a payload_a) ] sys in
  chartData (state sys') = Some payload_a
  /\ option_map City.name (selectedCity (state sys')) = Some (City.name b)
  /\ (JS.truthy_string (Payload.station_name payload_a) = true ->
      option_map City.station_name (selectedCity (state sys'))
      = Some (Payload.station_name payload_a)
      /\ option_map City.station_id (selectedCity (state sys'))
         = Some (Payload.station_id payload_a))
  /\ loading (state sys') = false
  /\ inflight sys' = inflight sys.
Proof.
  destruct sys as [[chart busy message selected h m] pending made].
  cbv zeta.
  cbn [run fold_left step call handleCitySelect fetchCityData select state
         inflight sent map].
  rewrite lookup_snoc_snoc, delete_snoc_snoc.
  cbn [step state inflight sent awaiting resume].
  rewrite lookup_snoc, delete_snoc.
  cbn [awaiting resume state inflight].
  unfold fetchCityData_resume.
  cbn [chartData loading selectedCity].
  destruct (JS.truthy_string (Payload.station_name payload_b));
    destruct (JS.truthy_string (Payload.station_name payload_a));
    cbn; repeat split; auto; discriminate.
Qed.

Lemma idle_means_loaded_step (sys : System) (e : Event) :
  idle_means_loaded sys -> idle_means_loaded (step sys e).
Proof.
  destruct sys as [[chart busy message selected h m] pending made].
  unfold idle_means_loaded. intros Hinv.
  destruct e as [| city | cityName | dataType | | n r];
    try (cbn; intros Hnil; apply app_eq_nil in Hnil as [_ Hnil];
         discriminate).
  - cbn [step]. unfold call, toggleDataType.
    cbn [state selectedCity showHistorical showMonthly].
    destruct selected as [c |];
      [| cbn; rewrite !app_nil_r; exact Hinv].
    destruct (_ || _).
    + cbn. intros Hnil. apply app_eq_nil in Hnil as [_ Hnil]. discriminate.
    + cbn. rewrite !app_nil_r. exact Hinv.
  - cbn [step inflight].
    destruct (pending !! n) as [request |]; [| exact Hinv].
    intros _. right.
    destruct (awaiting request), r; reflexivity.
Qed.

Lemma idle_means_loaded_run (events : list Event) :
  forall sys, idle_means_loaded sys -> idle_means_loaded (run events sys).
Proof.
  induction events as [| e events IH]; intros sys Hinv; cbn.
  - exact Hinv.
  - apply IH, idle_means_loaded_step, Hinv.
Qed.

(** X3.  Whatever the user does and in whatever order responses arrive,
    once the view has made a request and none is pending any more, its
    loading flag is off: the spinner never outlasts the last response. *)
Theorem loading_off_when_idle (events : list Event) :
  let sys := run events boot in
  sent sys <> [] -> inflight sys = [] -> loading (state sys) = false.
Proof.
  intros sys Hsent Hidle.
  destruct (idle_means_loaded_run events boot) as [Hnone | Hoff]; auto.
  - left. reflexivity.
  - contradiction.
Qed.

Lemma loading_off_when_idle_witness :
  let sys := run [ Mounted; Settled 0 (Axios.RejectedNoResponse "timeout") ]
               boot in
  sent sys <> [] /\ inflight sys = [] /\ loading (state sys) = false.
Proof.
  cbv zeta. split; [discriminate |]. split; [reflexivity |].
  apply (loading_off_when_idle
           [ Mounted; Settled 0 (Axios.RejectedNoResponse "timeout") ]);
    [discriminate | reflexivity].
Defined.

(** X4.  Going back to all cities and then receiving the response to
    that request leaves the view on the all-cities chart: the response
    body as chart data, no city selected, the recent period, no error and
    the loading flag off, whatever the state was before; one request to
    /api/graph/cities has been made. *)
Theorem back_then_response (sys : System) (status : Z) (body : Payload.t) :
  let sys' := run [ BackClicked;
                    Settled (length (inflight sys))
                      (Axios.Resolved status body) ] sys in
  state sys' = {| chartData := Some body; loading := false; error := "";
                  selectedCity := None;
                  showHistorical := false; showMonthly := false |}
  /\ sent sys' = sent sys ++ [ "/api/graph/cities" ]
  /\ inflight sys' = inflight sys.
Proof.
  destruct sys as [[chart busy message selected h m] pending made].
  cbv zeta.
  cbn [run fold_left step call goBackToAllCities fetchAllCitiesData state
         inflight sent map].
  rewrite lookup_snoc, delete_snoc. cbn. auto.
Qed.

(** X5.  Selecting a city keeps the period the view is on and requests
    that period's endpoint for the city's name; when the response to
    that request arrives, the view shows its body as chart data under
    the title of that city and period, with no error and the loading
    flag off, and the selected city is the one picked, with the
    payload's station written onto it when the payload names one. *)
Theorem select_then_response (sys : System) (city : City.t) (p : Period)
  (status : Z) (body : Payload.t) :
  currentDataType (state sys) = period_name p ->
  let sys' := run [ CitySelected city;
                    Settled (length (inflight sys))
                      (Axios.Resolved status body) ] sys in
  chartData (state sys') = Some body
  /\ loading (state sys') = false
  /\ error (state sys') = ""
  /\ currentDataType (state sys') = period_name p
  /\ selectedCity (state sys')
     = Some (if JS.truthy_string (Payload.station_name body)
             then {| City.id := City.id city;
                     City.name := City.name city;
                     City.latitude := City.latitude city;
                     City.longitude := City.longitude city;
                     City.station_name := Payload.station_name body;
                     City.station_id := Payload.station_id body |}
             else city)
  /\ chartTitle (state sys')
     = "Temperature Data for " +:+ City.name city +:+ period_label p
  /\ sent sys' = sent sys ++ [ period_endpoint p (City.name city) ]
  /\ inflight sys' = inflight sys.
Proof.
  destruct sys as [[chart busy message selected h m] pending made].
  cbv zeta. unfold currentDataType.
  cbn [state showHistorical showMonthly]. intros Hp.
  cbn [run fold_left step call handleCitySelect fetchCityData select state
         inflight sent map url].
  rewrite lookup_snoc, delete_snoc.
  cbn [awaiting resume state inflight sent].
  unfold fetchCityData_resume, chartTitle, currentDataType.
  cbn [chartData loading error selectedCity showHistorical showMonthly].
  destruct (JS.truthy_string (Payload.station_name body));
    destruct h, m, p; try discriminate; cbn; repeat split; reflexivity.
Qed.

Lemma select_then_response_witness :
  currentDataType (state boot) = period_name recent
  /\ chartTitle
       (state (run [ CitySelected sample_city;
                     Settled 0 (Axios.Resolved 200 (sample_payload None None)) ]
                 boot))
     = "Temperature Data for Stockholm (Recent)".
Proof.
  split; [reflexivity |].
  destruct (select_then_response boot sample_city recent 200
              (sample_payload None None) eq_refl)
    as (_ & _ & _ & _ & _ & Htitle & _).
  exact Htitle.
Defined.

End AppRuns.

(** ** The search box as a whole *)

Section SearchRuns.
Import CitySearch.
Variable origin : string.

(** X6.  A search with a query of length at least 2 (in UTF-16 code
    units, as [.length] counts) makes one
    request, to /api/cities/search/<query> on the page origin, and shows
    the loading state with the old message cleared.  When the response
    arrives, its cities become the result list and the loading state
    ends; the message is 'No matching cities found' exactly when the
    list is empty, and empty otherwise.  When the request fails instead,
    the result list stays as it was, under 'Error searching for cities.
    Please try again.'. *)
Theorem search_then_response (s : State) :
  (2 <= JS.length (searchTerm s))%nat ->
  exists s1,
    searchCity origin s
    = (s1, Some (origin +:+ "/api/cities/search/" +:+ searchTerm s))
    /\ loading s1 = true /\ error s1 = "" /\ results s1 = results s
    /\ (forall (status : Z) (found : list City.t),
          searchCity_resume (Axios.Resolved status found) s1
          = {| searchTerm := searchTerm s;
               results := found;
               loading := false;
               error := match found with
                        | [] => "No matching cities found"
                        | _ :: _ => ""
                        end |})
    /\ (forall r : Axios.Result (list City.t),
          Axios.failed r = true ->
          searchCity_resume r s1
          = {| searchTerm := searchTerm s;
               results := results s;
               loading := false;
               error := "Error searching for cities. Please try again." |}).
Proof.
  intros Hlen.
  exists {| searchTerm := searchTerm s; results := results s;
            loading := true; error := "" |}.
  split; [| split; [| split; [| split; [| split]]]].
  - apply searchCity_long, Hlen.
  - reflexivity.
  - reflexivity.
  - reflexivity.
  - intros status [| c found]; reflexivity.
  - intros r Hfail. destruct r; try discriminate; reflexivity.
Qed.

Lemma busy_means_pending_step (sys : System) (e : Event) :
  busy_means_pending sys -> busy_means_pending (step origin sys e).
Proof.
  destruct sys as [[term found busy message] pending made out].
  unfold busy_means_pending. intros Hinv.
  destruct e as [typed | | city | n r].
  - exact Hinv.
  - cbn [step state]. unfold searchCity. cbn [searchTerm results loading error].
    destruct (_ || _); cbn.
    + rewrite app_nil_r. exact Hinv.
    + intros _ Hnil. apply app_eq_nil in Hnil as [_ Hnil]. discriminate.
  - exact Hinv.
  - cbn [step inflight]. destruct (pending !! n); [| exact Hinv].
    destruct r; discriminate.
Qed.

Lemma busy_means_pending_run (events : list Event) :
  forall sys, busy_means_pending sys ->
              busy_means_pending (run origin events sys).
Proof.
  induction events as [| e events IH]; intros sys Hinv; cbn.
  - exact Hinv.
  - apply IH, busy_means_pending_step, Hinv.
Qed.

(** X7.  Whatever is typed, searched and picked and in whatever order
    responses arrive, the search box is in its loading state (input and
    button disabled) only while one of its requests is pending. *)
Theorem search_busy_only_while_pending (events : list Event) :
  let sys := run origin events boot in
  loading (state sys) = true -> inflight sys <> [].
Proof.
  apply (busy_means_pending_run events boot). discriminate.
Qed.

End SearchRuns.

Lemma search_then_response_witness :
  (2 <= JS.length "åre")%nat
  /\ snd (CitySearch.searchCity "http://localhost"
            {| CitySearch.searchTerm := "åre"; CitySearch.results := [];
               CitySearch.loading := false; CitySearch.error := "" |})
     = Some "http://localhost/api/cities/search/åre".
Proof.
  split; [vm_compute; lia |].
  destruct (search_then_response "http://localhost"
              {| CitySearch.searchTerm := "åre"; CitySearch.results := [];
                 CitySearch.loading := false; CitySearch.error := "" |})
    as (s1 & Hcall & _).
  - vm_compute; lia.
  - rewrite Hcall. reflexivity.
Defined.

Lemma search_busy_only_while_pending_witness :
  let sys := CitySearch.run "http://localhost"
               [ CitySearch.Typed "sto"; CitySearch.SearchRequested ]
               CitySearch.boot in
  CitySearch.loading (CitySearch.state sys) = true
  /\ CitySearch.inflight sys <> [].
Proof.
  cbv zeta. split; [reflexivity |].
  apply (search_busy_only_while_pending "http://localhost"
           [ CitySearch.Typed "sto"; CitySearch.SearchRequested ]).
  reflexivity.
Defined.

(** ** More on chart composition *)

Section ChartDetails.
Import TemperatureChart.

(** X8.  The chart's title always starts with the title it is given.  It
    gets a second line exactly when the payload has a [time_range] and
    its period is 'historical' ('Data range: <start> to <end>') or
    'monthly' ('Monthly data from <start> to <end>'); otherwise it is
    the given title alone.  The x axis is titled by the period alone,
    and tick limits only ever come with the 'Data range' line. *)
Theorem title_lines (rnd : nat -> Q) (d : Payload.t) (title : string)
  (n : nat) :
  exists cfg n',
    createChart rnd true (Some d) title n = (Some cfg, n')
    /\ (forall range,
          Payload.time_range d = Some range ->
          Payload.period d = Some "historical" ->
          title_text cfg
          = Lines [ title;
                    "Data range: " +:+ start range +:+ " to " +:+ end_ range ])
    /\ (forall range,
          Payload.time_range d = Some range ->
          Payload.period d = Some "monthly" ->
          title_text cfg
          = Lines [ title;
                    "Monthly data from " +:+ start range +:+ " to "
                      +:+ end_ range ])
    /\ (Payload.time_range d = None
        \/ (Payload.period d <> Some "historical"
            /\ Payload.period d <> Some "monthly") ->
        title_text cfg = OneLine title)
    /\ (Payload.period d = Some "historical" -> x_title_text cfg = "Year-Month")
    /\ (Payload.period d = Some "monthly" ->
        x_title_text cfg = "Year-Month (Last 12 Months)")
    /\ (Payload.period d <> Some "historical" ->
        Payload.period d <> Some "monthly" -> x_title_text cfg = "Month")
    /\ (x_ticks cfg <> None ->
        exists range,
          title_text cfg
          = Lines [ title;
                    "Data range: " +:+ start range +:+ " to " +:+ end_ range ]).
Proof.
  rewrite createChart_total. do 2 eexists. split; [reflexivity |].
  cbn [title_text x_title_text x_ticks].
  unfold title_for, x_axis_title, ticks_for, JS.strict_eq, JS.truthy_object.
  destruct (Payload.period d) as [p |];
    destruct (Payload.time_range d) as [range |];
    try destruct (String.eqb_spec p "historical") as [-> | Hh];
    try destruct (String.eqb_spec p "monthly") as [Hm | Hm];
    try discriminate; subst; cbn [andb];
    repeat split; intros; try congruence; try reflexivity;
      try (destruct_or!; destruct_and?; congruence);
      simplify_eq; cbn; eauto.
Qed.

(** X9.  For a payload without [cities] and with [temperatures], the
    chart has one city dataset, first, carrying the temperatures, with
    no line width of its own and point radius 3, followed only by the
    average dataset when there is an average.  Its label is
    '<city> (<station>)' when the payload has a non-empty station name
    that is not the city (the city printed as 'null' when it is null
    and as 'undefined' when it is absent), and the city itself
    otherwise.  A payload with neither [cities] nor [temperatures] still
    gives a chart, with no city dataset. *)
Theorem single_city_dataset_shape (rnd : nat -> Q) (d : Payload.t)
  (title : string) (n : nat) :
  Payload.cities d = None ->
  exists cfg n',
    createChart rnd true (Some d) title n = (Some cfg, n')
    /\ match Payload.temperatures d with
       | Some temperatures =>
           exists x extra,
             datasets cfg = x :: extra
             /\ data x = temperatures
             /\ borderWidth x = None
             /\ pointRadius x = 3%Z
             /\ map label extra
                = match Payload.average d with
                  | Some _ => [ Some "Average" ]
                  | None => []
                  end
             /\ (forall station,
                   Payload.station_name d = Some station ->
                   station <> "" ->
                   Payload.city d <> JS.Str station ->
                   label x
                   = Some (match Payload.city d with
                           | JS.Str c => c
                           | JS.Null => "null"
                           | JS.Absent => "undefined"
                           end +:+ " (" +:+ station +:+ ")"))
             /\ (Payload.station_name d = None
                 \/ Payload.station_name d = Some ""
                 \/ (exists c, Payload.city d = JS.Str c
                               /\ Payload.station_name d = Some c) ->
                 label x = match Payload.city d with
                           | JS.Str c => Some c
                           | _ => None
                           end)
       | None =>
           map label (datasets cfg)
           = match Payload.average d with
             | Some _ => [ Some "Average" ]
             | None => []
             end
       end.
Proof.
  intros Hc. rewrite createChart_total. do 2 eexists. split; [reflexivity |].
  cbn [datasets]. unfold build_datasets, bind. rewrite Hc.
  assert (Havg : map label (average_dataset d)
                 = match Payload.average d with
                   | Some _ => [ Some "Average" ]
                   | None => []
                   end).
  { unfold average_dataset. destruct (Payload.average d); reflexivity. }
  destruct (Payload.temperatures d) as [temperatures |]; [| exact Havg].
  unfold single_city_dataset, bind.
  destruct (getCityColor rnd (JS.print (Payload.city d)) n) as [border m].
  destruct (getCityColor rnd (JS.print (Payload.city d)) m)
    as [background k].
  cbn [fst ret app]. do 2 eexists. split; [reflexivity |].
  cbn [data borderWidth pointRadius label].
  do 4 (split; [first [reflexivity | exact Havg] |]).
  unfold JS.truthy_string, JS.strict_ne, JS.text_string, JS.print. split.
  - intros station Hst Hne Hcity. rewrite Hst.
    destruct (String.eqb_spec station ""); [contradiction |].
    destruct (Payload.city d) as [| | c]; cbn; try reflexivity.
    destruct (String.eqb_spec station c); [congruence | reflexivity].
  - intros [Hst | [Hst | (c & Hcity & Hst)]];
      rewrite Hst; try reflexivity.
    rewrite Hcity. destruct (c =? ""); cbn; [reflexivity |].
    rewrite String.eqb_refl. reflexivity.
Qed.

Lemma single_city_dataset_shape_witness :
  Payload.cities (sample_payload None None) = None
  /\ exists cfg n',
       createChart no_random true (Some (sample_payload None None))
         "Temperature Data for Stockholm (Recent)" 0%nat = (Some cfg, n')
       /\ map label (datasets cfg) = [ Some "Stockholm (Stockholm A)" ].
Proof.
  split; [reflexivity |].
  destruct (single_city_dataset_shape no_random (sample_payload None None)
              "Temperature Data for Stockholm (Recent)" 0%nat eq_refl)
    as (cfg & n' & Hcfg & x & extra & Hds & _ & _ & _ & Hextra & Hlabel & _).
  exists cfg, n'. split; [exact Hcfg |].
  rewrite Hds. cbn [map]. rewrite Hextra.
  rewrite (Hlabel "Stockholm A" eq_refl); [reflexivity | discriminate |].
  discriminate.
Defined.

Lemma outside_palette_lookup (name : string) :
  outside_palette name = true -> lookup_color name CITY_COLORS = None.
Proof.
  unfold outside_palette, palette_names, CITY_COLORS.
  cbn [existsb lookup_color].
  rewrite !(String.eqb_sym name).
  repeat match goal with
         | |- context [String.eqb ?k name] => destruct (String.eqb k name)
         end; cbn; congruence.
Qed.

Lemma inside_palette_lookup (name : string) :
  outside_palette name = false ->
  JS.truthy_string (lookup_color name CITY_COLORS) = true.
Proof.
  unfold outside_palette, palette_names, CITY_COLORS.
  cbn [existsb lookup_color].
  rewrite !(String.eqb_sym name).
  repeat match goal with
         | |- context [String.eqb ?k name] => destruct (String.eqb k name)
         end; cbn; congruence.
Qed.

Lemma nearest_even_le (y : Q) : (inject_Z (JS.nearest_even y) <= y + (1 # 2))%Q.
Proof.
  unfold JS.nearest_even.
  pose proof (Qfloor_le y) as Hfloor.
  destruct (Qcompare (y - inject_Z (Qfloor y)) (1 # 2)) eqn:Hcmp.
  - apply Qeq_alt in Hcmp.
    destruct (Z.even (Qfloor y)); [lra |].
    rewrite inject_Z_plus. change (inject_Z 1) with 1%Q. lra.
  - lra.
  - apply Qgt_alt in Hcmp.
    rewrite inject_Z_plus. change (inject_Z 1) with 1%Q. lra.
Qed.

Lemma nearest_even_nonneg (y : Q) : (0 <= y)%Q -> (0 <= JS.nearest_even y)%Z.
Proof.
  intros Hy. unfold JS.nearest_even.
  assert (Hfloor : (0 <= Qfloor y)%Z).
  { change 0%Z with (Qfloor 0). apply Qfloor_resp_le, Hy. }
  destruct (Qcompare _ _); [destruct (Z.even _) | |]; lia.
Qed.

Lemma exponent_small (x : Q) : (x < 256)%Q -> (JS.exponent x <= 7)%Z.
Proof.
  intros Hx. unfold JS.exponent.
  destruct (Qle_bool 1 x) eqn:Hone.
  - apply Qle_bool_iff in Hone.
    assert (Hlow : (1 <= Qfloor x)%Z).
    { change 1%Z with (Qfloor 1). apply Qfloor_resp_le, Hone. }
    assert (Hhigh : (Qfloor x < 2 ^ 8)%Z).
    { rewrite Zlt_Qlt. apply Qle_lt_trans with (1 := Qfloor_le x).
      exact Hx. }
    apply Z.log2_lt_pow2 in Hhigh; lia.
  - pose proof (Z.log2_up_nonneg (Qceiling (/ x))). lia.
Qed.

Lemma double_channel (x : Q) :
  (0 <= x)%Q -> (x <= 255 * largest_draw)%Q ->
  (0 <= Qfloor (JS.double x) <= 254)%Z.
Proof.
  unfold largest_draw. intros Hlow Hhigh. unfold JS.double.
  destruct (Qle_bool x 0) eqn:Hzero; [split; discriminate |].
  assert (Hexp : (JS.exponent x <= 7)%Z) by (apply exponent_small; lra).
  set (k := (Z.max (JS.exponent x) (-1022) - 52)%Z).
  assert (Hk : (k <= -45)%Z) by (unfold k; lia).
  assert (Hstep : (0 < 2 ^ k)%Q) by (apply Qpower_0_lt; reflexivity).
  assert (Hfine : (2 ^ k <= 1 # 35184372088832)%Q).
  { apply Qle_trans with (2 ^ (-45))%Q;
      [apply Qpower_le_compat_l; [exact Hk | discriminate] | discriminate]. }
  set (g := (2 ^ k)%Q) in *.
  assert (Hscaled : (x / g * g == x)%Q) by (field; lra).
  assert (Hy : (0 <= x / g)%Q).
  { apply Qle_shift_div_l; [exact Hstep | lra]. }
  pose proof (nearest_even_le (x / g)) as Hnear.
  pose proof (nearest_even_nonneg (x / g) Hy) as Hpos.
  set (m := JS.nearest_even (x / g)) in *.
  assert (Hm : (0 <= inject_Z m)%Q) by (change 0%Q with (inject_Z 0); rewrite <- Zle_Qle; exact Hpos).
  assert (Hvalue : (inject_Z m * g <= x + g * (1 # 2))%Q).
  { apply Qle_trans with ((x / g + (1 # 2)) * g)%Q;
      [apply Qmult_le_compat_r; lra |].
    rewrite Qmult_plus_distr_l, Hscaled. lra. }
  assert (Hnonneg : (0 <= inject_Z m * g)%Q) by (apply Qmult_le_0_compat; lra).
  split.
  - change 0%Z with (Qfloor 0). apply Qfloor_resp_le, Hnonneg.
  - assert (Hlt : (Qfloor (inject_Z m * g) < 255)%Z).
    { rewrite Zlt_Qlt. apply Qle_lt_trans with (1 := Qfloor_le _).
      change (inject_Z 255) with (255 # 1)%Q. lra. }
    lia.
Qed.

Lemma channel_bounds (rnd : nat -> Q) (n : nat) :
  (0 <= rnd n)%Q -> (rnd n <= largest_draw)%Q ->
  (0 <= channel rnd n <= 254)%Z.
Proof.
  intros Hlow Hhigh. unfold channel. apply double_channel.
  - lra.
  - unfold largest_draw in *. lra.
Qed.

Lemma getCityColor_random (rnd : nat -> Q) (name : string) (n : nat) :
  random_colored name = true ->
  getCityColor rnd name n
  = (rgb (channel rnd n) (channel rnd (S n)) (channel rnd (S (S n))),
     S (S (S n))).
Proof.
  unfold random_colored. intros [Hout Hown]%andb_true_iff.
  apply negb_true_iff in Hown. unfold getCityColor.
  rewrite (outside_palette_lookup _ Hout), Hown. reflexivity.
Qed.

Lemma getCityColor_inherited (rnd : nat -> Q) (name : string) (n : nat) :
  outside_palette name = true -> JS.inherited name = true ->
  getCityColor rnd name n = (InheritedProperty name, n).
Proof.
  intros Hout Hown. unfold getCityColor.
  rewrite (outside_palette_lookup _ Hout), Hown. reflexivity.
Qed.

Lemma getCityColor_draws (rnd : nat -> Q) (name : string) (n : nat) :
  snd (getCityColor rnd name n)
  = (n + if random_colored name then 3 else 0)%nat.
Proof.
  destruct (random_colored name) eqn:Hrandom.
  - rewrite (getCityColor_random _ _ _ Hrandom). cbn. lia.
  - unfold random_colored in Hrandom.
    destruct (outside_palette name) eqn:Hout.
    + cbn in Hrandom. apply negb_false_iff in Hrandom.
      rewrite (getCityColor_inherited _ _ _ Hout Hrandom). cbn. lia.
    + unfold getCityColor. rewrite (inside_palette_lookup _ Hout). cbn. lia.
Qed.

Lemma city_datasets_draws (rnd : nat -> Q)
  (entries : list (string * list reading)) :
  forall n,
    snd (city_datasets rnd entries n)
    = (n + 6 * length (List.filter random_colored (map fst entries)))%nat.
Proof.
  induction entries as [| [cityName temperatures] rest IH]; intros n.
  - cbn. lia.
  - cbn [city_datasets map fst List.filter]. unfold bind.
    pose proof (getCityColor_draws rnd cityName n) as H1.
    destruct (getCityColor rnd cityName n) as [border n1].
    pose proof (getCityColor_draws rnd cityName n1) as H2.
    destruct (getCityColor rnd cityName n1) as [background n2].
    specialize (IH n2).
    destruct (city_datasets rnd rest n2) as [more n3].
    cbn [fst snd ret] in *. subst.
    destruct (random_colored cityName); cbn [length]; lia.
Qed.

(** X10.  For a name that is neither in the palette nor one of the names
    every object inherits, [getCityColor] takes three draws from
    [Math.random] and returns 'rgb(r, g, b)', where each channel is the
    floor of the double product of a draw and 255; with draws that are
    doubles from 0 up to the largest double below 1, every channel lies
    between 0 and 254, so 255 is never produced.  For a name every
    object inherits ('constructor', 'toString', ...) it takes no draw
    and returns the inherited property, which is no color string. *)
Theorem random_color_channels (rnd : nat -> Q) (name : string) (n : nat) :
  outside_palette name = true ->
  (forall k, (0 <= rnd k)%Q /\ (rnd k <= largest_draw)%Q) ->
  (JS.inherited name = false ->
   exists r g b,
     getCityColor rnd name n = (rgb r g b, S (S (S n)))
     /\ r = Qfloor (JS.double (rnd n * 255))
     /\ g = Qfloor (JS.double (rnd (S n) * 255))
     /\ b = Qfloor (JS.double (rnd (S (S n)) * 255))
     /\ (0 <= r <= 254)%Z /\ (0 <= g <= 254)%Z /\ (0 <= b <= 254)%Z)
  /\ (JS.inherited name = true ->
      getCityColor rnd name n = (InheritedProperty name, n)).
Proof.
  intros Hout Hdraws. split.
  - intros Hown.
    exists (channel rnd n), (channel rnd (S n)), (channel rnd (S (S n))).
    split.
    { apply getCityColor_random. unfold random_colored.
      rewrite Hout, Hown. reflexivity. }
    do 3 (split; [reflexivity |]).
    repeat split; apply channel_bounds; apply Hdraws.
  - intros Hown. apply getCityColor_inherited; assumption.
Qed.

Lemma random_color_channels_witness :
  outside_palette "Lund" = true
  /\ (forall k, (0 <= sixteenths k)%Q /\ (sixteenths k <= largest_draw)%Q)
  /\ getCityColor sixteenths "Lund" 4%nat = ("rgb(63, 79, 95)", 7%nat).
Proof.
  split; [reflexivity |].
  assert (Hdraws : forall k, (0 <= sixteenths k)%Q
                             /\ (sixteenths k <= largest_draw)%Q).
  { intros k. unfold sixteenths, largest_draw, Qle. cbn [Qnum Qden].
    pose proof (Nat.mod_upper_bound k 16). lia. }
  split; [exact Hdraws |].
  destruct (proj1 (random_color_channels sixteenths "Lund" 4%nat eq_refl
                     Hdraws) eq_refl)
    as (r & g & b & Hcolor & -> & -> & -> & _).
  rewrite Hcolor. vm_compute. reflexivity.
Defined.

(** X11.  Composing a chart takes six draws from [Math.random] for each
    city dataset whose name is neither in the palette nor one every
    object inherits, three for the line color and three more for the
    fill color, and none for the other datasets: a chart of palette
    names takes no draw at all, and the two colors of a city with a
    random color are drawn apart. *)
Theorem composition_draws (rnd : nat -> Q) (d : Payload.t) (title : string)
  (n : nat) :
  snd (createChart rnd true (Some d) title n)
  = (n + 6 * length (List.filter random_colored (city_names d)))%nat
  /\ (forall temperatures,
        Payload.cities d = None ->
        Payload.temperatures d = Some temperatures ->
        random_colored (JS.print (Payload.city d)) = true ->
        exists cfg n' x extra,
          createChart rnd true (Some d) title n = (Some cfg, n')
          /\ datasets cfg = x :: extra
          /\ borderColor x
             = ColorString
                 (rgb (Qfloor (JS.double (rnd n * 255)))
                    (Qfloor (JS.double (rnd (S n) * 255)))
                    (Qfloor (JS.double (rnd (S (S n)) * 255))))
          /\ backgroundColor x
             = ColorString
                 (rgb (Qfloor (JS.double (rnd (3 + n)%nat * 255)))
                    (Qfloor (JS.double (rnd (4 + n)%nat * 255)))
                    (Qfloor (JS.double (rnd (5 + n)%nat * 255))))).
Proof.
  rewrite createChart_total. cbn [snd]. split.
  - unfold build_datasets, city_names, bind.
    destruct (Payload.cities d) as [entries |].
    + pose proof (city_datasets_draws rnd entries n) as H.
      destruct (city_datasets rnd entries n). exact H.
    + destruct (Payload.temperatures d) as [temperatures |];
        [| cbn; lia].
      unfold single_city_dataset, bind.
      pose proof (getCityColor_draws rnd (JS.print (Payload.city d)) n)
        as H1.
      destruct (getCityColor rnd (JS.print (Payload.city d)) n)
        as [border n1].
      pose proof (getCityColor_draws rnd (JS.print (Payload.city d)) n1)
        as H2.
      destruct (getCityColor rnd (JS.print (Payload.city d)) n1)
        as [background n2].
      cbn [fst snd ret List.filter length] in *. subst.
      destruct (random_colored (JS.print (Payload.city d)));
        cbn [length]; lia.
  - intros temperatures Hc Ht Hrandom. do 2 eexists.
    unfold build_datasets, bind. rewrite Hc, Ht.
    unfold single_city_dataset, bind.
    rewrite !(getCityColor_random _ _ _ Hrandom).
    cbn [fst ret app datasets]. do 2 eexists.
    split; [reflexivity |]. split; [reflexivity |].
    split; reflexivity.
Qed.

End ChartDetails.

(** ** The two copies of the chart component *)

Section ChartVersions.
Import TemperatureChart.

Lemma plain_decorations (d : Payload.t) (title : string) :
  Payload.period d <> Some "historical" ->
  Payload.period d <> Some "monthly" ->
  title_for d title = OneLine title
  /\ x_axis_title d = "Month"
  /\ ticks_for d = None.
Proof.
  intros Hh Hm. unfold title_for, x_axis_title, ticks_for, JS.strict_eq.
  destruct (Payload.period d) as [p |];
    [| destruct (Payload.time_range d); auto].
  destruct (String.eqb_spec p "historical"); [congruence |].
  destruct (String.eqb_spec p "monthly"); [congruence |].
  destruct (Payload.time_range d); auto.
Qed.

Lemma plain_label (d : Payload.t) :
  Payload.station_name d = None
  \/ Payload.station_name d = Some ""
  \/ Payload.station_name d = JS.text_string (Payload.city d) ->
  (if JS.truthy_string (Payload.station_name d)
      && JS.strict_ne (Payload.station_name d)
           (JS.text_string (Payload.city d))
   then Some (JS.print (Payload.city d) +:+ " ("
                +:+ JS.to_string (Payload.station_name d) +:+ ")")
   else JS.text_string (Payload.city d)) = JS.text_string (Payload.city d).
Proof.
  intros [Hs | [Hs | Hs]]; rewrite Hs; try reflexivity.
  destruct (JS.text_string (Payload.city d)) as [c |]; [| reflexivity].
  cbn. rewrite String.eqb_refl, andb_false_r. reflexivity.
Qed.

(** X12.  The older and the newer chart component build the same chart
    from a payload that is neither historical nor monthly and has no
    station name to show beside the city.  On every payload they agree
    on the chart type, the labels, the y axis title, the number of draws
    from [Math.random] and the datasets up to their labels (readings,
    colors, widths); and both build nothing without a canvas or without
    data. *)
Theorem chart_versions_agree (rnd : nat -> Q) (d : Payload.t)
  (title : string) (n : nat) :
  (exists newer older n',
      createChart rnd true (Some d) title n = (Some newer, n')
      /\ TemperatureChartOld.createChart rnd true (Some d) title n
         = (Some older, n')
      /\ type newer = type older
      /\ labels newer = labels older
      /\ y_title_text newer = y_title_text older
      /\ map forget_label (datasets newer) = map forget_label (datasets older)
      /\ (plain_payload d -> newer = older))
  /\ (forall (canvas : bool) (given : option Payload.t),
        canvas = false \/ given = None ->
        createChart rnd canvas given title n = (None, n)
        /\ TemperatureChartOld.createChart rnd canvas given title n = (None, n)).
Proof.
  split.
  - rewrite createChart_total.
    unfold TemperatureChartOld.createChart, TemperatureChartOld.build_datasets,
      build_datasets, bind.
    destruct (Payload.cities d) as [entries |];
      [destruct (city_datasets rnd entries n) as [per_city n1]
      | destruct (Payload.temperatures d) as [temperatures |];
        [unfold single_city_dataset,
           TemperatureChartOld.single_city_dataset, bind;
         destruct (getCityColor rnd (JS.print (Payload.city d)) n)
           as [border n1];
         destruct (getCityColor rnd (JS.print (Payload.city d)) n1)
           as [background n2] |]];
      cbn [fst snd ret]; do 3 eexists;
      do 6 (split; [reflexivity |]);
      intros (Hh & Hm & Hstation);
      destruct (plain_decorations d title Hh Hm) as (-> & -> & ->);
      rewrite ?(plain_label d Hstation); reflexivity.
  - intros canvas given [-> | ->]; [| destruct canvas]; split; reflexivity.
Qed.

End ChartVersions.

(** ** The chart object *)

Section ChartObject.
Import TemperatureChart ChartLifecycle.
Variable rnd : nat -> Q.

Lemma destroy_leaves_none (s : State) (c : nat) :
  one_live s -> chart s = Some c ->
  Forall (fun x => destroyed x = true) (destroy c (instances s)).
Proof.
  intros Hlive Hc. apply Forall_lookup. intros i x Hx. unfold destroy in Hx.
  destruct (decide (c = i)) as [<- | Hne].
  - rewrite list_lookup_alter_eq in Hx.
    destruct (instances s !! c); cbn in Hx; [| discriminate].
    injection Hx as <-. reflexivity.
  - rewrite list_lookup_alter_ne in Hx by exact Hne.
    destruct (destroyed x) eqn:Hd; [reflexivity |].
    specialize (Hlive i x Hx Hd). congruence.
Qed.

Lemma unset_means_none (s : State) :
  one_live s -> chart s = None ->
  Forall (fun x => destroyed x = true) (instances s).
Proof.
  intros Hlive Hc. apply Forall_lookup. intros i x Hx.
  destruct (destroyed x) eqn:Hd; [reflexivity |].
  specialize (Hlive i x Hx Hd). congruence.
Qed.

Lemma createChart_run_one_live (i : Inputs) (s : State) (n : nat) :
  Forall (fun x => destroyed x = true) (instances s) ->
  one_live (fst (createChart_run rnd i s n)).
Proof.
  intros Hnone. unfold createChart_run, bind.
  destruct (createChart rnd (chartCanvas i) (props_data i) (props_title i) n)
    as [[cfg |] n'];
    cbn [fst ret]; intros k x Hx Hd.
  - cbn [instances chart] in *.
    apply lookup_app_Some in Hx as [Hx | [Hk Hx]].
    + rewrite Forall_lookup in Hnone. specialize (Hnone k x Hx). congruence.
    + destruct (k - length (instances s))%nat as [| j] eqn:Hj;
        [| destruct j; discriminate].
      f_equal. lia.
  - rewrite Forall_lookup in Hnone. specialize (Hnone k x Hx). congruence.
Qed.

Lemma on_data_change_one_live (i : Inputs) (s : State) (n : nat) :
  one_live s -> one_live (fst (on_data_change rnd i s n)).
Proof.
  intros Hlive. unfold on_data_change.
  apply createChart_run_one_live.
  destruct (chart s) as [c |] eqn:Hc.
  - apply destroy_leaves_none; assumption.
  - apply unset_means_none; assumption.
Qed.

Lemma on_data_changes_one_live (changes : list Inputs) :
  forall s n, one_live s -> one_live (fst (on_data_changes rnd changes s n)).
Proof.
  induction changes as [| i rest IH]; intros s n Hlive.
  - exact Hlive.
  - cbn [on_data_changes]. unfold bind.
    pose proof (on_data_change_one_live i s n Hlive) as H1.
    destruct (on_data_change rnd i s n) as [s1 n1]. apply IH, H1.
Qed.

(** What [createChart] leaves behind when it has a canvas and data. *)
Lemma createChart_run_made (i : Inputs) (d : Payload.t) (s : State) (n : nat) :
  chartCanvas i = true -> props_data i = Some d ->
  exists k x,
    chart (fst (createChart_run rnd i s n)) = Some k
    /\ instances (fst (createChart_run rnd i s n)) !! k = Some x
    /\ destroyed x = false
    /\ fst (createChart rnd true (Some d) (props_title i) n) = Some (config x).
Proof.
  intros Hcanvas Hdata. unfold createChart_run, bind.
  rewrite Hcanvas, Hdata, createChart_total. cbn [fst ret chart instances].
  do 2 eexists. split; [reflexivity |].
  split; [apply list_lookup_middle; reflexivity |].
  split; reflexivity.
Qed.

Lemma on_data_changes_made (changes : list Inputs) :
  forall (s : State) (n : nat) (latest : Inputs) (d : Payload.t),
    last changes = Some latest ->
    chartCanvas latest = true -> props_data latest = Some d ->
    exists k x m,
      chart (fst (on_data_changes rnd changes s n)) = Some k
      /\ instances (fst (on_data_changes rnd changes s n)) !! k = Some x
      /\ destroyed x = false
      /\ fst (createChart rnd true (Some d) (props_title latest) m)
         = Some (config x).
Proof.
  induction changes as [| i rest IH]; intros s n latest d Hlast Hcanvas Hdata.
  - discriminate.
  - cbn [on_data_changes]. unfold bind.
    destruct rest as [| j rest].
    + injection Hlast as ->. unfold on_data_change.
      destruct (createChart_run_made latest d
                  match chart s with
                  | Some c => {| chart := chart s;
                                 instances := destroy c (instances s) |}
                  | None => s
                  end n Hcanvas Hdata) as (k & x & H).
      destruct (createChart_run rnd latest _ n) as [s1 n1].
      exists k, x, n. exact H.
    + destruct (on_data_change rnd i s n) as [s1 n1].
      apply (IH s1 n1 latest d); assumption.
Qed.

(** X13.  From [setup] on, once the component is mounted and however
    often its data changes, at most one chart object has not been
    destroyed, and it is the one [chart] refers to: the watcher destroys
    the current object before it builds the next.  When the latest data
    is present (and the canvas is there), that object exists and is the
    chart composed from the latest data and title. *)
Theorem one_chart_live (first : Inputs) (changes : list Inputs) (n : nat) :
  let s := fst (lifecycle rnd first changes n) in
  (forall (i : nat) (x : Instance),
      instances s !! i = Some x -> destroyed x = false -> chart s = Some i)
  /\ (forall (latest : Inputs) (d : Payload.t),
        last (first :: changes) = Some latest ->
        chartCanvas latest = true -> props_data latest = Some d ->
        exists k x m,
          chart s = Some k
          /\ instances s !! k = Some x
          /\ destroyed x = false
          /\ fst (createChart rnd true (Some d) (props_title latest) m)
             = Some (config x)).
Proof.
  cbv zeta. unfold lifecycle, onMounted, bind.
  assert (Hsetup : Forall (fun x => destroyed x = true) (instances setup))
    by constructor.
  pose proof (createChart_run_one_live first setup n Hsetup) as Hlive.
  split.
  - destruct (createChart_run rnd first setup n) as [s0 n0].
    apply on_data_changes_one_live, Hlive.
  - intros latest d Hlast Hcanvas Hdata.
    destruct changes as [| i rest].
    + injection Hlast as ->.
      destruct (createChart_run_made latest d setup n Hcanvas Hdata)
        as (k & x & H).
      destruct (createChart_run rnd latest setup n) as [s0 n0].
      exists k, x, n. exact H.
    + destruct (createChart_run rnd first setup n) as [s0 n0].
      apply (on_data_changes_made (i :: rest) s0 n0 latest d); assumption.
Qed.

End ChartObject.

(** ** More invariants of the toggle view *)

Section AppInvariants.
Import App.

Lemma unselected_is_recent_step (sys : System) (e : Event) :
  unselected_is_recent (state sys) -> unselected_is_recent (state (step sys e)).
Proof.
  destruct sys as [[chart busy message selected h m] pending made].
  unfold unselected_is_recent. cbn [state]. intros Hinv.
  destruct e as [| city | cityName | dataType | | n r];
    try (cbn; intros; first [discriminate | solve [auto]]).
  - cbn [step]. unfold call, toggleDataType.
    cbn [state selectedCity showHistorical showMonthly].
    destruct selected as [c |]; [| exact Hinv].
    destruct (_ || _); cbn; discriminate.
  - cbn [step inflight]. destruct (pending !! n) as [request |];
      [| exact Hinv].
    cbn [state]. destruct (awaiting request), r; cbn; try exact Hinv.
    destruct selected as [c |]; [| exact Hinv].
    destruct (JS.truthy_string _); discriminate.
Qed.

Lemma unselected_is_recent_run (events : list Event) :
  forall sys, unselected_is_recent (state sys) ->
              unselected_is_recent (state (run events sys)).
Proof.
  induction events as [| e events IH]; intros sys Hinv; cbn.
  - exact Hinv.
  - apply IH, unselected_is_recent_step, Hinv.
Qed.

(** X14.  Whatever the user does and in whatever order responses arrive,
    the two period flags are never set together, and both are off while
    no city is selected: the all-cities view is always on the recent
    period. *)
Theorem period_flags_well_formed (events : list Event) :
  let s := state (run events boot) in
  (showHistorical s = true -> showMonthly s = false)
  /\ (selectedCity s = None ->
      showHistorical s = false /\ showMonthly s = false
      /\ currentDataType s = "recent").
Proof.
  cbv zeta. split.
  - pose proof (reachable_flags_exclusive events) as Hex.
    unfold flags_exclusive in Hex. intros Hh. rewrite Hh in Hex. exact Hex.
  - intros Hsel.
    destruct (unselected_is_recent_run events boot) as [Hh Hm]; auto.
    + intros _. split; reflexivity.
    + unfold currentDataType. rewrite Hh, Hm. auto.
Qed.

Lemma graph_request_step (sys : System) (e : Event) :
  Forall graph_request (sent sys) -> Forall graph_request (sent (step sys e)).
Proof.
  destruct sys as [[chart busy message selected h m] pending made].
  cbn [sent]. intros Hsent.
  assert (Hcurrent : forall s cityName,
             graph_request (endpoint cityName (currentDataType s))).
  { intros s cityName. right.
    destruct (current_names_period s cityName) as (p & _ & Hend & _).
    eauto. }
  destruct e as [| city | cityName | dataType | | n r].
  - cbn. apply Forall_app. split; [exact Hsent |].
    constructor; [left; reflexivity | constructor].
  - cbn -[endpoint currentDataType]. apply Forall_app. split; [exact Hsent |].
    constructor; [apply Hcurrent | constructor].
  - cbn -[endpoint currentDataType]. apply Forall_app. split; [exact Hsent |].
    constructor; [apply Hcurrent | constructor].
  - cbn [step]. unfold call, toggleDataType.
    cbn [state selectedCity showHistorical showMonthly].
    destruct selected as [c |]; [| cbn; rewrite app_nil_r; exact Hsent].
    destruct (_ || _); cbn -[endpoint].
    + apply Forall_app. split; [exact Hsent |].
      constructor; [| constructor]. right.
      destruct (toggle_names_period dataType (City.name c))
        as (p & _ & Hend & _).
      eauto.
    + rewrite app_nil_r. exact Hsent.
  - cbn. apply Forall_app. split; [exact Hsent |].
    constructor; [left; reflexivity | constructor].
  - cbn [step inflight]. destruct (pending !! n); exact Hsent.
Qed.

Lemma graph_request_run (events : list Event) :
  forall sys, Forall graph_request (sent sys) ->
              Forall graph_request (sent (run events sys)).
Proof.
  induction events as [| e events IH]; intros sys Hsent; cbn.
  - exact Hsent.
  - apply IH, graph_request_step, Hsent.
Qed.

(** X15.  Every request the view ever makes is a request for
    /api/graph/cities or for one of /api/graph/city/<name>,
    /api/graph/monthly/<name> and /api/graph/historical/<name>, even
    when a data-type button passes a string that names no period. *)
Theorem requests_are_graph_requests (events : list Event) :
  Forall graph_request (sent (run events boot)).
Proof. apply graph_request_run. constructor. Qed.

Lemma chart_data_step (sys : System) (e : Event) (body : Payload.t) :
  chartData (state (step sys e)) = Some body ->
  chartData (state sys) = Some body
  \/ exists n status, e = Settled n (Axios.Resolved status body).
Proof.
  destruct sys as [[chart busy message selected h m] pending made].
  destruct e as [| city | cityName | dataType | | n r];
    try (cbn; auto; fail).
  - cbn [step]. unfold call, toggleDataType.
    cbn [state selectedCity showHistorical showMonthly].
    destruct selected as [c |]; [| cbn; auto].
    destruct (_ || _); cbn; auto.
  - cbn [step inflight]. destruct (pending !! n) as [request |];
      [| cbn; auto].
    cbn [state].
    destruct (awaiting request), r as [status got | status got | failure];
      cbn; intros H; first [discriminate | auto | idtac];
      injection H as ->; right; eauto.
Qed.

Lemma chart_data_run (events : list Event) (body : Payload.t) :
  forall sys,
    chartData (state (run events sys)) = Some body ->
    chartData (state sys) = Some body
    \/ exists n status, In (Settled n (Axios.Resolved status body)) events.
Proof.
  induction events as [| e events IH]; intros sys Hdata; cbn in *.
  - auto.
  - destruct (IH _ Hdata) as [Hstep | (n & status & Hin)].
    + destruct (chart_data_step _ _ _ Hstep) as [Hold | (n & status & ->)];
        eauto.
    + eauto.
Qed.

(** X16.  The chart data of the view is never made up: whatever the user
    does, the payload the view holds is the body of a successful
    response that has arrived. *)
Theorem chart_data_from_responses (events : list Event) (body : Payload.t) :
  chartData (state (run events boot)) = Some body ->
  exists n status, In (Settled n (Axios.Resolved status body)) events.
Proof.
  intros Hdata.
  destruct (chart_data_run events body boot Hdata) as [Hboot | Hin];
    [discriminate | exact Hin].
Qed.

Lemma chart_data_from_responses_witness :
  chartData (state (run [ Mounted;
                          Settled 0 (Axios.Resolved 200 sample_cities) ]
                      boot))
  = Some sample_cities
  /\ exists n status,
       In (Settled n (Axios.Resolved status sample_cities))
         [ Mounted; Settled 0 (Axios.Resolved 200 sample_cities) ].
Proof.
  split; [reflexivity |].
  apply (chart_data_from_responses
           [ Mounted; Settled 0 (Axios.Resolved 200 sample_cities) ]).
  reflexivity.
Defined.

(** X17.  When a response arrives, the two views set the same error
    message, except for a 404 on a single-city request: there the older
    view shows 'Failed to load data for <city>. Please try again.' like
    for any other failure, and the toggle view shows the response's
    detail or 'No data found for <city>'. *)
Theorem views_error_messages (waiting : Awaiting) (r : Axios.Result Payload.t)
  (a : State) (b : AppSimple.State) :
  error a = AppSimple.error b ->
  (waiting = AllCities \/ is_404 r = false ->
   error (resume waiting r a)
   = AppSimple.error (AppSimple.resume waiting r b))
  /\ (forall cityName,
        waiting = CityData cityName -> is_404 r = true ->
        AppSimple.error (AppSimple.resume waiting r b)
        = "Failed to load data for " +:+ cityName +:+ ". Please try again."
        /\ (error (resume waiting r a) = "No data found for " +:+ cityName
            \/ exists body,
                 r = Axios.RejectedResponse 404 body
                 /\ Axios.detail body = Some (error (resume waiting r a)))).
Proof.
  intros Herr. split.
  - intros [-> | H404].
    + destruct r; cbn; auto.
    + destruct waiting, r; cbn in *; auto. rewrite H404. reflexivity.
  - intros cityName -> H404.
    destruct r as [status body | status body | failure]; try discriminate.
    cbn in H404. apply Z.eqb_eq in H404 as ->.
    split; [reflexivity |]. cbn.
    destruct body as [[d |]]; cbn; [| auto].
    destruct (d =? ""); cbn; [auto |]. right. eexists. split; reflexivity.
Qed.

Lemma views_error_messages_witness :
  error initial = AppSimple.error AppSimple.initial
  /\ error (resume (CityData "Lund")
              (Axios.RejectedNoResponse "timeout") initial)
     = AppSimple.error (AppSimple.resume (CityData "Lund")
                          (Axios.RejectedNoResponse "timeout")
                          AppSimple.initial).
Proof.
  split; [reflexivity |].
  apply (proj1 (views_error_messages (CityData "Lund")
                  (Axios.RejectedNoResponse "timeout") initial
                  AppSimple.initial eq_refl)).
  right. reflexivity.
Defined.

End AppInvariants.
